(** * The Cerebras inference client ([scripts/cerebras_client.py])

    A shallow embedding of the client: configuration loading
    ([get_config]), client construction ([CerebrasClient.__init__]), the
    request builders ([complete], [code]), the blocking request ([chat]) and
    the streaming loop ([stream]), followed by the properties of the
    specification that concern them.

    Conventions.
    - A Python [str] is a [string]; a character is read as the code point
      of the same number, so the embedding covers text in U+0000..U+00FF.
    - [None] is [None]; an optional argument is an [option].
    - [os.environ] is a finite map from names to values.
    - A raised exception is the [Raise] result; a function that can raise
      returns a [result].
    - The config file is [None] when its path does not exist, and else
      the list of the lines that reading it yields.
    - The HTTP server, [bytes.decode] and [json.loads] are not part of the
      repository: the operations that use them take them as arguments. *)

From Stdlib Require Import ZArith String Ascii List Bool Lia DecimalString Floats.
From stdpp Require Import base gmap strings.

Set Warnings "-inexact-float,-register-all".

Open Scope string_scope.
Open Scope list_scope.

(** ** Python's string operations *)

Module PyStr.

(** [str.isspace] on one character (code points below 256). *)
Definition isspace (c : ascii) : bool :=
  let n := N_of_ascii c in
  ((9 <=? n) && (n <=? 13) || (28 <=? n) && (n <=? 32)
   || (n =? 133) || (n =? 160))%N.

(** [str.lower] on one character (code points below 256): the letters
    A..Z and the accented capitals U+00C0..U+00DE, the sign U+00D7 apart. *)
Definition lower_char (c : ascii) : ascii :=
  let n := N_of_ascii c in
  if ((65 <=? n) && (n <=? 90)
      || (192 <=? n) && (n <=? 222) && negb (n =? 215))%N
  then ascii_of_N (n + 32) else c.

Fixpoint lower (s : string) : string :=
  match s with
  | EmptyString => EmptyString
  | String c t => String (lower_char c) (lower t)
  end.

(** Does the character occur in [chars]? *)
Fixpoint mem_char (chars : string) (c : ascii) : bool :=
  match chars with
  | EmptyString => false
  | String d t => Ascii.eqb c d || mem_char t c
  end.

Fixpoint lstrip_by (p : ascii -> bool) (s : string) : string :=
  match s with
  | EmptyString => EmptyString
  | String c t => if p c then lstrip_by p t else s
  end.

Fixpoint rstrip_by (p : ascii -> bool) (s : string) : string :=
  match s with
  | EmptyString => EmptyString
  | String c t =>
      match rstrip_by p t with
      | EmptyString => if p c then EmptyString else String c EmptyString
      | r => String c r
      end
  end.

(** [s.strip()] *)
Definition strip (s : string) : string :=
  rstrip_by isspace (lstrip_by isspace s).

(** [s.strip(chars)] *)
Definition strip_chars (chars s : string) : string :=
  rstrip_by (mem_char chars) (lstrip_by (mem_char chars) s).

(** [s.startswith(p)] *)
Definition startswith (s p : string) : bool := String.prefix p s.

(** [s[n:]] for [0 <= n] *)
Fixpoint drop (n : nat) (s : string) : string :=
  match n, s with
  | O, _ => s
  | S _, EmptyString => EmptyString
  | S m, String _ t => drop m t
  end.

(** [sub in s] *)
Fixpoint contains (sub s : string) : bool :=
  String.prefix sub s
  || match s with
     | EmptyString => false
     | String _ t => contains sub t
     end.

(** [s.split(sep, 1)] for a separator that is not empty: the text before
    and after the first occurrence of [sep], or [s] alone. *)
Fixpoint split_1 (sep s : string) : list string :=
  if String.prefix sep s then [EmptyString; drop (String.length sep) s]
  else match s with
       | EmptyString => [s]
       | String c t =>
           match split_1 sep t with
           | [a; b] => [String c a; b]
           | _ => [s]
           end
       end.

(** [s.replace(old, new)] for [old] not empty. The recursion is on a
    count of characters still to read. *)
Fixpoint replace_fuel (fuel : nat) (old new s : string) : string :=
  match fuel with
  | O => s
  | S fuel' =>
      if String.prefix old s
      then new +:+ replace_fuel fuel' old new (drop (String.length old) s)
      else match s with
           | EmptyString => EmptyString
           | String c t => String c (replace_fuel fuel' old new t)
           end
  end.

Definition replace (old new s : string) : string :=
  replace_fuel (S (String.length s)) old new s.

(** [str(n)] for an [int] *)
Definition of_int (n : Z) : string := NilZero.string_of_int (Z.to_int n).

(** The truth value of an optional string: [None] and the empty string
    are false. *)
Definition truthy (o : option string) : bool :=
  match o with
  | Some (String _ _) => true
  | _ => false
  end.

(** [s] occurs in [t] as a contiguous run of characters. *)
Definition occurs_in (s t : string) : Prop :=
  exists pre post, t = pre +:+ s +:+ post.

End PyStr.

(** The double quote and the apostrophe, by code. *)
Definition dquote : ascii := ascii_of_nat 34.
Definition squote : ascii := ascii_of_nat 39.

(** [q s] is [s] with every apostrophe turned into a double quote: the
    literals below that hold double quotes are written with apostrophes. *)
Fixpoint q (s : string) : string :=
  match s with
  | EmptyString => EmptyString
  | String c t => String (if Ascii.eqb c squote then dquote else c) (q t)
  end.

(** ** Exceptions and results *)

Inductive exn : Type :=
| ValueError (msg : string)
| Exception (msg : string)
| KeyError (key : string)
| IndexError
| TypeError
| AttributeError
| UnicodeDecodeError
| SystemExit (code : Z).

Inductive result (A : Type) : Type :=
| Ok (a : A)
| Raise (e : exn).

Arguments Ok {A} a.
Arguments Raise {A} e.

(** Sequencing: the first exception raised ends the computation. The
    notation [x ← r; k] is the one of the map library, through these
    instances. *)
#[export] Instance result_ret : MRet result := fun A a => Ok a.

#[export] Instance result_bind : MBind result := fun A B k r =>
  match r with
  | Ok a => k a
  | Raise e => Raise e
  end.

(** ** Configuration ([get_config]) *)

Record Config : Type := mkConfig {
  cfg_api_key : option string;
  cfg_model : string;
  cfg_base_url : string
}.

Definition set_api_key (c : Config) (v : option string) : Config :=
  mkConfig v (cfg_model c) (cfg_base_url c).

Definition set_model (c : Config) (v : string) : Config :=
  mkConfig (cfg_api_key c) v (cfg_base_url c).

(** The characters [value.strip] removes: the two quotes. *)
Definition quote_chars : string := String dquote (String squote EmptyString).

(** The body of the loop over the lines of the config file. Unpacking
    [line.split("=", 1)] into two names raises [ValueError] unless the list
    has two elements. *)
Definition config_line (config : Config) (raw : string) : result Config :=
  let line := PyStr.strip raw in
  if PyStr.contains "=" line && negb (PyStr.startswith line "#") then
    match PyStr.split_1 "=" line with
    | [key; value] =>
        let key := PyStr.lower (PyStr.strip key) in
        let value := PyStr.strip_chars quote_chars (PyStr.strip value) in
        if String.eqb key "cerebras_api_key"
           && negb (PyStr.truthy (cfg_api_key config))
        then Ok (set_api_key config (Some value))
        else if String.eqb key "cerebras_model"
        then Ok (set_model config value)
        else Ok config
    | _ => Raise (ValueError "not enough values to unpack (expected 2, got 1)")
    end
  else Ok config.

Fixpoint config_lines (config : Config) (f : list string) : result Config :=
  match f with
  | [] => Ok config
  | raw :: rest => c ← config_line config raw; config_lines c rest
  end.

(** [environ] is [os.environ]; [file] is [None] when the config path does
    not exist and otherwise the lines that reading the file yields. *)
Definition get_config (environ : gmap string string)
    (file : option (list string)) : result Config :=
  let config :=
    mkConfig (environ !! "CEREBRAS_API_KEY")
             (default "zai-glm-4.7" (environ !! "CEREBRAS_MODEL"))
             "https://api.cerebras.ai/v1" in
  match file with
  | Some f => config_lines config f
  | None => Ok config
  end.

(** ** Client construction ([CerebrasClient.__init__]) *)

Record Client : Type := mkClient {
  api_key : string;
  model : string;
  base_url : string
}.

(** [a or b]: [b] when [a] is [None] or the empty string. The second
    operand is an optional string in the one use and a string in the
    other. *)
Definition or_opt (a b : option string) : option string :=
  if PyStr.truthy a then a else b.

Definition or_str (a : option string) (b : string) : string :=
  match a with
  | Some (String c t) => String c t
  | _ => b
  end.

Definition missing_key_message : string :=
  "CEREBRAS_API_KEY not set. Export it or add to ~/.config/cerebras/config".

Module CerebrasClient.

(** The constructor answers the client, or raises. [self.api_key] is an
    optional string until the test on it; a client that exists holds the
    string. *)
Definition __init__ (api_key model : option string)
    (environ : gmap string string) (file : option (list string))
    : result Client :=
  config ← get_config environ file;
  let self_api_key := or_opt api_key (cfg_api_key config) in
  let self_model := or_str model (cfg_model config) in
  let self_base_url := cfg_base_url config in
  if negb (PyStr.truthy self_api_key)
  then Raise (ValueError missing_key_message)
  else Ok (mkClient (default EmptyString self_api_key)
                    self_model self_base_url).

End CerebrasClient.

(** ** The values of [json.loads] *)

(** A number is kept as its literal: the client never computes with one.
    A [dict] is the list of its items; a key has one item. *)
Inductive JSON : Type :=
| JNull
| JBool (b : bool)
| JNumber (literal : string)
| JStr (s : string)
| JList (items : list JSON)
| JDict (items : list (string * JSON)).

Fixpoint JSON_eqb (a b : JSON) : bool :=
  match a, b with
  | JNull, JNull => true
  | JBool x, JBool y => Bool.eqb x y
  | JNumber x, JNumber y => String.eqb x y
  | JStr x, JStr y => String.eqb x y
  | JList xs, JList ys =>
      (fix go (xs ys : list JSON) : bool :=
         match xs, ys with
         | [], [] => true
         | x :: xs', y :: ys' => JSON_eqb x y && go xs' ys'
         | _, _ => false
         end) xs ys
  | JDict xs, JDict ys =>
      (fix go (xs ys : list (string * JSON)) : bool :=
         match xs, ys with
         | [], [] => true
         | (k, x) :: xs', (l, y) :: ys' =>
             String.eqb k l && JSON_eqb x y && go xs' ys'
         | _, _ => false
         end) xs ys
  | _, _ => false
  end.

(** The item of a [dict] under a key. *)
Fixpoint dict_get (items : list (string * JSON)) (key : string) : option JSON :=
  match items with
  | [] => None
  | (k, v) :: rest => if String.eqb k key then Some v else dict_get rest key
  end.

Module Py.

(** [obj[key]] for a string key. A [dict] answers the item or raises
    [KeyError]; a list or a string takes no string index; the other
    values take no index. *)
Definition getitem (obj : JSON) (key : string) : result JSON :=
  match obj with
  | JDict items =>
      match dict_get items key with
      | Some v => Ok v
      | None => Raise (KeyError key)
      end
  | _ => Raise TypeError
  end.

(** [obj[0]]. The keys of a [dict] read from JSON are strings, so [0] is
    no key of one. *)
Definition getitem_0 (obj : JSON) : result JSON :=
  match obj with
  | JList (x :: _) => Ok x
  | JList [] => Raise IndexError
  | JStr (String c _) => Ok (JStr (String c EmptyString))
  | JStr EmptyString => Raise IndexError
  | JDict _ => Raise (KeyError "0")
  | _ => Raise TypeError
  end.

(** [obj.get(key, {})]: only a [dict] has the method. *)
Definition get (obj : JSON) (key : string) : result JSON :=
  match obj with
  | JDict items => Ok (default (JDict []) (dict_get items key))
  | _ => Raise AttributeError
  end.

(** [key in obj] for a string key: a key of a [dict], an item of a list,
    a run of characters of a string; the other values are no
    containers. *)
Definition contains (key : string) (obj : JSON) : result bool :=
  match obj with
  | JDict items => Ok (match dict_get items key with Some _ => true | None => false end)
  | JList items => Ok (existsb (JSON_eqb (JStr key)) items)
  | JStr s => Ok (PyStr.contains key s)
  | _ => Raise TypeError
  end.

End Py.

(** ** Requests and responses *)

Record Message : Type := mkMessage {
  role : string;
  content : string
}.

(** The JSON body of a request. [body_stream] is [None] when the body has
    no [stream] key. *)
Record Body : Type := mkBody {
  body_model : string;
  body_messages : list Message;
  body_max_tokens : Z;
  body_temperature : float;
  body_stream : option bool
}.

Record Request : Type := mkRequest {
  url : string;
  req_headers : list (string * string);
  req_json : Body
}.

(** What the client reads of a response: [resp.status], the result of
    [resp.text()], the result of [resp.json()], and the lines that
    iterating over [resp.content] yields, as bytes. *)
Record Response : Type := mkResponse {
  status : Z;
  text : string;
  json : result JSON;
  body_lines : list (list Byte.byte)
}.

(** One call of [print]. *)
Inductive printed : Type :=
| PrintObj (obj : JSON) (end_ : string)
| PrintStr (s : string)
| PrintNewline.

(** The effects of a run: the requests sent, in order, and what was
    printed on the two streams. *)
Record World : Type := mkWorld {
  requests : list Request;
  stdout : list printed;
  stderr : list printed
}.

Definition world0 : World := mkWorld [] [] [].

(** A computation of the client: it reads and extends the effects and
    answers or raises. *)
Definition M (A : Type) : Type := World -> result A * World.

#[export] Instance M_ret : MRet M := fun A a w => (Ok a, w).

#[export] Instance M_bind : MBind M := fun A B k m w =>
  match m w with
  | (Ok a, w') => k a w'
  | (Raise e, w') => (Raise e, w')
  end.

Definition raise {A : Type} (e : exn) : M A := fun w => (Raise e, w).

Definition lift {A : Type} (r : result A) : M A := fun w => (r, w).

(** The line feed, and the fence of a block of code. *)
Definition newline : string := String (ascii_of_nat 10) EmptyString.
Definition fence : string := "```".

Definition default_max_tokens : Z := 4096.
Definition default_temperature : float := 0.7%float.

Section Network.

(** The server: the response to each request. *)
Variable server : Request -> Response.

(** [session.post]: the request is sent and the response read. *)
Definition post (r : Request) : M Response := fun w =>
  (Ok (server r),
   mkWorld (requests w ++ [r]) (stdout w) (stderr w)).

Definition headers (self : Client) : list (string * string) :=
  [("Authorization", "Bearer " +:+ api_key self);
   ("Content-Type", "application/json")].

Definition api_error (resp : Response) : exn :=
  Exception ("Cerebras API error " +:+ PyStr.of_int (status resp)
             +:+ ": " +:+ text resp).

Definition chat (self : Client) (messages : list Message)
    (max_tokens : Z) (temperature : float) : M JSON :=
  resp ← post (mkRequest (base_url self +:+ "/chat/completions")
                         (headers self)
                         (mkBody (model self) messages max_tokens
                                 temperature None));
  if negb (status resp =? 200)%Z then raise (api_error resp)
  else
    data ← lift (json resp);
    lift (choices ← Py.getitem data "choices";
          choice ← Py.getitem_0 choices;
          message ← Py.getitem choice "message";
          Py.getitem message "content").

(** [if system:] holds for a string that is not empty. *)
Definition complete (self : Client) (prompt : string)
    (system : option string) (max_tokens : Z) (temperature : float)
    : M JSON :=
  let messages := [] in
  let messages :=
    match system with
    | Some (String _ _ as system) =>
        messages ++ [mkMessage "system" system]
    | _ => messages
    end in
  let messages := messages ++ [mkMessage "user" prompt] in
  chat self messages max_tokens temperature.

Definition code (self : Client) (task : string) (context : option string)
    (language : string) : M JSON :=
  let system :=
    "You are an expert " +:+ language +:+ " programmer. " +:+ newline
    +:+ "Output only code, no explanations unless asked." +:+ newline
    +:+ "Follow best practices and include error handling." in
  let prompt := task in
  let prompt :=
    match context with
    | Some (String _ _ as context) =>
        "Context:" +:+ newline +:+ fence +:+ newline +:+ context
        +:+ newline +:+ fence +:+ newline +:+ newline
        +:+ "Task: " +:+ task
    | _ => prompt
    end in
  complete self prompt (Some system) default_max_tokens 0.3%float.

End Network.

(** ** Streaming ([CerebrasClient.stream]) *)

(** A run of the generator: the fragments it yields, in order, and how it
    ends, by running off its end or by an exception. *)
Record Run : Type := mkRun {
  yielded : list JSON;
  ending : result unit
}.

Section Streaming.

Variable server : Request -> Response.

(** [bytes.decode]: [None] stands for [UnicodeDecodeError]. *)
Variable decode : list Byte.byte -> option string.

(** [json.loads]: [None] stands for [json.JSONDecodeError]. *)
Variable json_loads : string -> option JSON.

(** The body of the loop over the lines of the response: the fragment
    the line yields, if any. Of the exceptions of the [try] block the
    handler catches [JSONDecodeError] alone. *)
Definition stream_line (raw : list Byte.byte) : result (option JSON) :=
  match decode raw with
  | None => Raise UnicodeDecodeError
  | Some s =>
      let line := PyStr.strip s in
      if PyStr.startswith line "data: "
         && negb (String.eqb line "data: [DONE]")
      then
        match json_loads (PyStr.drop 6 line) with
        | None => Ok None
        | Some data =>
            choices ← Py.getitem data "choices";
            choice ← Py.getitem_0 choices;
            delta ← Py.get choice "delta";
            present ← Py.contains "content" delta;
            if present : bool
            then fragment ← Py.getitem delta "content"; Ok (Some fragment)
            else Ok None
        end
      else Ok None
  end.

Fixpoint stream_lines (lines : list (list Byte.byte)) : Run :=
  match lines with
  | [] => mkRun [] (Ok tt)
  | raw :: rest =>
      match stream_line raw with
      | Raise e => mkRun [] (Raise e)
      | Ok None => stream_lines rest
      | Ok (Some fragment) =>
          let r := stream_lines rest in
          mkRun (fragment :: yielded r) (ending r)
      end
  end.

Definition stream (self : Client) (prompt : string)
    (system : option string) (max_tokens : Z) (temperature : float)
    : World -> Run * World := fun w =>
  let messages := [] in
  let messages :=
    match system with
    | Some (String _ _ as system) =>
        messages ++ [mkMessage "system" system]
    | _ => messages
    end in
  let messages := messages ++ [mkMessage "user" prompt] in
  match post server
             (mkRequest (base_url self +:+ "/chat/completions")
                        (headers self)
                        (mkBody (model self) messages max_tokens
                                temperature (Some true))) w with
  | (Ok resp, w') =>
      if negb (status resp =? 200)%Z
      then (mkRun [] (Raise (api_error resp)), w')
      else (stream_lines (body_lines resp), w')
  | (Raise e, w') => (mkRun [] (Raise e), w')
  end.

End Streaming.

(** ** The command line ([main]) *)

Definition PRESETS : list (string * string) :=
  [("refactor", "Refactor this code to be cleaner and more maintainable:");
   ("test", "Write comprehensive pytest tests for this code:");
   ("docs", "Write docstrings and comments for this code:");
   ("types", "Add type hints to this Python code:");
   ("translate", "Translate this code to {target_lang}:");
   ("explain", "Explain what this code does step by step:")].

Fixpoint preset_get (items : list (string * string)) (name : string)
    : result string :=
  match items with
  | [] => Raise (KeyError name)
  | (k, v) :: rest => if String.eqb k name then Ok v else preset_get rest name
  end.

(** The parsed arguments: the subcommand with its options. *)
Inductive Command : Type :=
| CmdComplete (prompt : string) (system : option string) (stream_flag : bool)
| CmdCode (task : string) (context : option string) (language : string)
| CmdChat (message : string) (context system : option string)
| CmdPreset (name context : string) (target_lang : option string).

Definition print (obj : JSON) (end_ : string) : M unit := fun w =>
  (Ok tt, mkWorld (requests w) (stdout w ++ [PrintObj obj end_]) (stderr w)).

Definition print_newline : M unit := fun w =>
  (Ok tt, mkWorld (requests w) (stdout w ++ [PrintNewline]) (stderr w)).

Definition print_stderr (s : string) : M unit := fun w =>
  (Ok tt, mkWorld (requests w) (stdout w) (stderr w ++ [PrintStr s])).

Fixpoint print_all (chunks : list JSON) : M unit :=
  match chunks with
  | [] => mret tt
  | chunk :: rest => _ ← print chunk EmptyString; print_all rest
  end.

Section Main.

Variable server : Request -> Response.
Variable decode : list Byte.byte -> option string.
Variable json_loads : string -> option JSON.
Variable environ : gmap string string.
Variable file : option (list string).

(** The loop that prints the fragments does nothing to the generator, so
    the fragments are printed in order and the generator's exception, if
    any, is raised after the fragments before it. The one template with a
    field is that of [translate], whose only braces are those of
    [{target_lang}]: [format] puts the argument in its place. *)
Definition run_command (client : Client) (command : Command) : M unit :=
  match command with
  | CmdComplete prompt system true =>
      fun w =>
        let (run, w') :=
          stream server decode json_loads client prompt system
                 default_max_tokens default_temperature w in
        (_ ← print_all (yielded run);
         _ ← lift (ending run);
         print_newline) w'
  | CmdComplete prompt system false =>
      result ← complete server client prompt system
                        default_max_tokens default_temperature;
      print result newline
  | CmdCode task context language =>
      result ← code server client task context language;
      print result newline
  | CmdChat message context system =>
      let prompt := message in
      let prompt :=
        match context with
        | Some (String _ _ as context) =>
            "Context:" +:+ newline +:+ context +:+ newline +:+ newline
            +:+ message
        | _ => prompt
        end in
      result ← complete server client prompt system
                        default_max_tokens default_temperature;
      print result newline
  | CmdPreset name context target_lang =>
      preset_prompt ← lift (preset_get PRESETS name);
      let preset_prompt :=
        if PyStr.contains "{target_lang}" preset_prompt
        then PyStr.replace "{target_lang}"
                           (or_str target_lang "TypeScript") preset_prompt
        else preset_prompt in
      let prompt :=
        preset_prompt +:+ newline +:+ newline +:+ fence +:+ newline
        +:+ context +:+ newline +:+ fence in
      result ← complete server client prompt None
                        default_max_tokens 0.3%float;
      print result newline
  end.

Definition main (model : option string) (command : Command) : M unit :=
  match CerebrasClient.__init__ None model environ file with
  | Raise (ValueError e) =>
      _ ← print_stderr ("Error: " +:+ e);
      raise (SystemExit 1)
  | Raise e => raise e
  | Ok client => run_command client command
  end.

End Main.

(** ** Reference instances of the library functions

    A decoder for 7-bit text and a reader of JSON text, for running the
    client on concrete bodies. The properties further down hold for every
    decoder and every reader; these two serve the worked examples. *)

Module Reference.

(** The bytes of 7-bit text; a byte from 128 up is refused. *)
Fixpoint decode (raw : list Byte.byte) : option string :=
  match raw with
  | [] => Some EmptyString
  | b :: rest =>
      if (Byte.to_N b <? 128)%N
      then s ← decode rest; Some (String (ascii_of_byte b) s)
      else None
  end.

Definition encode (s : string) : list Byte.byte := list_byte_of_string s.

Definition code_of (c : ascii) : N := N_of_ascii c.

Definition is_ws (c : ascii) : bool :=
  let n := code_of c in ((n =? 32) || (n =? 9) || (n =? 10) || (n =? 13))%N.

Definition is_digit (c : ascii) : bool :=
  let n := code_of c in ((48 <=? n) && (n <=? 57))%N.

Fixpoint skip_ws (s : string) : string :=
  match s with
  | String c t => if is_ws c then skip_ws t else s
  | EmptyString => s
  end.

Definition hex_digit (c : ascii) : option N :=
  let n := code_of c in
  if ((48 <=? n) && (n <=? 57))%N then Some (n - 48)%N
  else if ((97 <=? n) && (n <=? 102))%N then Some (n - 87)%N
  else if ((65 <=? n) && (n <=? 70))%N then Some (n - 55)%N
  else None.

(** The character an escape letter stands for. *)
Definition escape (c : ascii) : option ascii :=
  let n := code_of c in
  if (n =? 34)%N then Some c          (* quote *)
  else if (n =? 92)%N then Some c     (* backslash *)
  else if (n =? 47)%N then Some c     (* slash *)
  else if (n =? 98)%N then Some (ascii_of_nat 8)
  else if (n =? 102)%N then Some (ascii_of_nat 12)
  else if (n =? 110)%N then Some (ascii_of_nat 10)
  else if (n =? 114)%N then Some (ascii_of_nat 13)
  else if (n =? 116)%N then Some (ascii_of_nat 9)
  else None.

(** The text of a string after its opening quote, and what follows the
    closing quote. A [\u] escape is read when it names a code point
    below 256. *)
Fixpoint read_string (s : string) : option (string * string) :=
  match s with
  | EmptyString => None
  | String c t =>
      if (code_of c =? 34)%N then Some (EmptyString, t)
      else if (code_of c =? 92)%N then
        match t with
        | String e t' =>
            match escape e with
            | Some ch =>
                '(r, rest) ← read_string t'; Some (String ch r, rest)
            | None =>
                match t' with
                | String h1 (String h2 (String h3 (String h4 t''))) =>
                    if (code_of e =? 117)%N then
                      a ← hex_digit h1; b ← hex_digit h2;
                      c ← hex_digit h3; d ← hex_digit h4;
                      if ((a =? 0) && (b =? 0))%N then
                        '(r, rest) ← read_string t'';
                        Some (String (ascii_of_N (16 * c + d)) r, rest)
                      else None
                    else None
                | _ => None
                end
            end
        | EmptyString => None
        end
      else if (code_of c <? 32)%N then None
      else '(r, rest) ← read_string t; Some (String c r, rest)
  end.

(** The longest run of digits at the head of [s]. *)
Fixpoint digits (s : string) : string * string :=
  match s with
  | String c t =>
      if is_digit c then let (d, rest) := digits t in (String c d, rest)
      else (EmptyString, s)
  | EmptyString => (EmptyString, s)
  end.

(** A number: sign, integer part, then a fraction and an exponent when
    they are complete. *)
Definition read_number (s : string) : option (string * string) :=
  let (sign, s1) :=
    match s with
    | String c t => if (code_of c =? 45)%N then ("-", t) else (EmptyString, s)
    | EmptyString => (EmptyString, s)
    end in
  let (int_part, s2) := digits s1 in
  let int_ok :=
    match int_part with
    | EmptyString => false
    | String c EmptyString => true
    | String c _ => negb (code_of c =? 48)%N
    end in
  if negb int_ok then
    (* a leading zero is a number by itself *)
    match s1 with
    | String c t =>
        if (code_of c =? 48)%N then Some (sign +:+ "0", t) else None
    | EmptyString => None
    end
  else
    let (frac, s3) :=
      match s2 with
      | String c t =>
          if (code_of c =? 46)%N then
            let (d, rest) := digits t in
            match d with
            | EmptyString => (EmptyString, s2)
            | _ => ("." +:+ d, rest)
            end
          else (EmptyString, s2)
      | EmptyString => (EmptyString, s2)
      end in
    let (exp, s4) :=
      match s3 with
      | String c t =>
          if ((code_of c =? 101) || (code_of c =? 69))%N then
            let (esign, t1) :=
              match t with
              | String g u =>
                  if ((code_of g =? 43) || (code_of g =? 45))%N
                  then (String g EmptyString, u) else (EmptyString, t)
              | EmptyString => (EmptyString, t)
              end in
            let (d, rest) := digits t1 in
            match d with
            | EmptyString => (EmptyString, s3)
            | _ => (String c esign +:+ d, rest)
            end
          else (EmptyString, s3)
      | EmptyString => (EmptyString, s3)
      end in
    Some (sign +:+ int_part +:+ frac +:+ exp, s4).

(** A later item of a key replaces the value of the earlier one. *)
Fixpoint dict_set (items : list (string * JSON)) (k : string) (v : JSON)
    : list (string * JSON) :=
  match items with
  | [] => [(k, v)]
  | (k', v') :: rest =>
      if String.eqb k' k then (k', v) :: rest
      else (k', v') :: dict_set rest k v
  end.

Definition literal (word : string) (v : JSON) (s : string)
    : option (JSON * string) :=
  if String.prefix word s
  then Some (v, PyStr.drop (String.length word) s) else None.

(** A value at the head of [s], and the rest. [read_items] reads the
    items of a list after the first, [read_pairs] the items of an object
    after the first. *)
Fixpoint read_value (fuel : nat) (s : string) : option (JSON * string) :=
  match fuel with
  | O => None
  | S fuel' =>
      match s with
      | EmptyString => None
      | String c t =>
          let n := code_of c in
          if (n =? 34)%N then
            '(r, rest) ← read_string t; Some (JStr r, rest)
          else if (n =? 91)%N then
            match skip_ws t with
            | String c' t' =>
                if (code_of c' =? 93)%N then Some (JList [], t')
                else
                  '(v, rest) ← read_value fuel' (skip_ws t);
                  '(vs, rest') ← read_items fuel' rest;
                  Some (JList (v :: vs), rest')
            | EmptyString => None
            end
          else if (n =? 123)%N then
            match skip_ws t with
            | String c' t' =>
                if (code_of c' =? 125)%N then Some (JDict [], t')
                else
                  '(items, rest) ← read_pairs fuel' [] (skip_ws t);
                  Some (JDict items, rest)
            | EmptyString => None
            end
          else if (n =? 110)%N then literal "null" JNull s
          else if (n =? 116)%N then literal "true" (JBool true) s
          else if (n =? 102)%N then literal "false" (JBool false) s
          else if (n =? 78)%N then literal "NaN" (JNumber "NaN") s
          else if (n =? 73)%N then literal "Infinity" (JNumber "Infinity") s
          else if String.prefix "-Infinity" s
          then literal "-Infinity" (JNumber "-Infinity") s
          else '(lit, rest) ← read_number s; Some (JNumber lit, rest)
      end
  end
with read_items (fuel : nat) (s : string) : option (list JSON * string) :=
  match fuel with
  | O => None
  | S fuel' =>
      match skip_ws s with
      | String c t =>
          if (code_of c =? 93)%N then Some ([], t)
          else if (code_of c =? 44)%N then
            '(v, rest) ← read_value fuel' (skip_ws t);
            '(vs, rest') ← read_items fuel' rest;
            Some (v :: vs, rest')
          else None
      | EmptyString => None
      end
  end
with read_pairs (fuel : nat) (acc : list (string * JSON)) (s : string)
    : option (list (string * JSON) * string) :=
  match fuel with
  | O => None
  | S fuel' =>
      match s with
      | String c t =>
          if (code_of c =? 34)%N then
            '(k, rest) ← read_string t;
            match skip_ws rest with
            | String c1 t1 =>
                if (code_of c1 =? 58)%N then
                  '(v, rest1) ← read_value fuel' (skip_ws t1);
                  let acc' := dict_set acc k v in
                  match skip_ws rest1 with
                  | String c2 t2 =>
                      if (code_of c2 =? 125)%N then Some (acc', t2)
                      else if (code_of c2 =? 44)%N
                      then read_pairs fuel' acc' (skip_ws t2)
                      else None
                  | EmptyString => None
                  end
                else None
            | EmptyString => None
            end
          else None
      | EmptyString => None
      end
  end.

(** The whole text is one value between optional blanks. *)
Definition json_loads (s : string) : option JSON :=
  match read_value (2 * String.length s + 2) (skip_ws s) with
  | Some (v, rest) =>
      match skip_ws rest with
      | EmptyString => Some v
      | _ => None
      end
  | None => None
  end.

End Reference.

(** * The vocabulary of the properties

    Definitions that the statements below use: what a line of the config
    file defines, the layers of the resolution, the requests the
    operations are to send, and the inputs of the worked examples. *)

(** The entry a line of the config file defines: its key and its value,
    as the loop of [get_config] computes them. *)
Definition entry (raw : string) : option (string * string) :=
  let line := PyStr.strip raw in
  if PyStr.contains "=" line && negb (PyStr.startswith line "#") then
    match PyStr.split_1 "=" line with
    | [key; value] =>
        Some (PyStr.lower (PyStr.strip key),
              PyStr.strip_chars quote_chars (PyStr.strip value))
    | _ => None
    end
  else None.

(** The value of the last [cerebras_model] entry of the lines, or [acc]. *)
Fixpoint lines_model (f : list string) (acc : option string) : option string :=
  match f with
  | [] => acc
  | raw :: rest =>
      lines_model rest
        match entry raw with
        | Some (k, v) => if String.eqb k "cerebras_model" then Some v else acc
        | None => acc
        end
  end.

(** The first value that is not empty among the [cerebras_api_key]
    entries of the lines. *)
Fixpoint lines_api_key (f : list string) : option string :=
  match f with
  | [] => None
  | raw :: rest =>
      match entry raw with
      | Some (k, String c t) =>
          if String.eqb k "cerebras_api_key" then Some (String c t)
          else lines_api_key rest
      | _ => lines_api_key rest
      end
  end.

Definition file_model (file : option (list string)) : option string :=
  match file with
  | Some f => lines_model f None
  | None => None
  end.

Definition file_api_key (file : option (list string)) : option string :=
  match file with
  | Some f => lines_api_key f
  | None => None
  end.

(** The layers of the resolution, the first that gives a value winning.
    For the key: the explicit argument, the environment, the file, an
    empty string counting as no value. For the model: the explicit
    argument unless empty, the file, the environment, the built-in name. *)
Definition layered_api_key (explicit : option string)
    (environ : gmap string string) (file : option (list string))
    : option string :=
  or_opt explicit (or_opt (environ !! "CEREBRAS_API_KEY") (file_api_key file)).

Definition layered_model (explicit : option string)
    (environ : gmap string string) (file : option (list string)) : string :=
  or_str explicit
    (default (default "zai-glm-4.7" (environ !! "CEREBRAS_MODEL"))
             (file_model file)).

(** An optional string with the empty string read as [None]. *)
Definition nonempty (o : option string) : option string := or_opt o None.

(** Does the line define an entry under [key]? *)
Definition has_entry (key raw : string) : bool :=
  match entry raw with
  | Some (k, _) => String.eqb k key
  | None => false
  end.

(** No line of the lines defines an entry under [key]. *)
Definition lines_lack (key : string) (f : list string) : bool :=
  forallb (fun raw => negb (has_entry key raw)) f.

(** The file is missing, or no line of it defines an entry under [key]. *)
Definition file_lacks (key : string) (file : option (list string)) : bool :=
  match file with
  | Some f => lines_lack key f
  | None => true
  end.

Definition url_v1 : string := "https://api.cerebras.ai/v1".

Definition model_environ : gmap string string :=
  <["CEREBRAS_MODEL" := "llama3.1-8b"]> (<["CEREBRAS_API_KEY" := "k"]> ∅).

Definition model_file : option (list string) :=
  Some ["# settings"; "cerebras_model = qwen-3-32b"].

(** The line [cerebras_api_key = "abc"]. *)
Definition abc_line : string := q "cerebras_api_key = 'abc'".

Definition empty_key_environ : gmap string string :=
  <["CEREBRAS_API_KEY" := EmptyString]> ∅.

(** The request that [chat] sends. *)
Definition chat_request (self : Client) (messages : list Message)
    (max_tokens : Z) (temperature : float) : Request :=
  mkRequest (base_url self +:+ "/chat/completions")
            (headers self)
            (mkBody (model self) messages max_tokens temperature None).

Definition sent (w : World) (r : Request) : World :=
  mkWorld (requests w ++ [r]) (stdout w) (stderr w).

(** A server that answers every request with one response. *)
Definition constant_server (resp : Response) : Request -> Response :=
  fun _ => resp.

Definition demo_client : Client := mkClient "k" "zai-glm-4.7" url_v1.

Definition unauthorized : Response :=
  mkResponse 401 (q "{'message':'Wrong API Key'}") (Raise TypeError) [].

Definition ok_response : Response :=
  mkResponse 200 EmptyString
    (Ok (JDict [("choices",
                 JList [JDict [("message",
                                JDict [("content", JStr "Hello")])]])]))
    [].

(** The system instruction of [code] for a language. *)
Definition code_system (language : string) : string :=
  "You are an expert " +:+ language +:+ " programmer. " +:+ newline
  +:+ "Output only code, no explanations unless asked." +:+ newline
  +:+ "Follow best practices and include error handling.".

(** The context in its block, before the task. *)
Definition with_context (context task : string) : string :=
  "Context:" +:+ newline +:+ fence +:+ newline +:+ context +:+ newline
  +:+ fence +:+ newline +:+ newline +:+ "Task: " +:+ task.

(** The request [code] is to send for a prompt. *)
Definition code_request (self : Client) (language prompt : string) : Request :=
  chat_request self
    [mkMessage "system" (code_system language); mkMessage "user" prompt]
    4096 0.3%float.

(** The optional system message: the message of the system string, when
    one is given and it is not empty. *)
Definition system_message (system : option string) : list Message :=
  match system with
  | Some (String c t) => [mkMessage "system" (String c t)]
  | _ => []
  end.

(** The conversation for a prompt and an optional system string: the
    optional system message followed by the user message. *)
Definition conversation (prompt : string) (system : option string)
    : list Message :=
  system_message system ++ [mkMessage "user" prompt].

(** The request that [stream] sends. *)
Definition stream_request (self : Client) (prompt : string)
    (system : option string) (max_tokens : Z) (temperature : float)
    : Request :=
  mkRequest (base_url self +:+ "/chat/completions") (headers self)
            (mkBody (model self) (conversation prompt system) max_tokens
                    temperature (Some true)).

(** A frame that carries one fragment of text. *)
Definition frame (fragment : string) : JSON :=
  JDict [("choices",
          JList [JDict [("delta", JDict [("content", JStr fragment)])]])].

(** The three payloads of the example of the specification. *)
Definition payload_Hel : string := q "{'choices':[{'delta':{'content':'Hel'}}]}".
Definition payload_lo : string := q "{'choices':[{'delta':{'content':'lo'}}]}".

(** A line of a body: the text, a line feed, as bytes. *)
Definition body_line (text : string) : list Byte.byte :=
  Reference.encode (text +:+ newline).

Definition streaming_response (lines : list string) : Response :=
  mkResponse 200 EmptyString (Raise TypeError) (map body_line lines).

(** The run of [stream] for a body, with the reference decoder and
    reader. *)
Definition reference_run (lines : list string) : Run :=
  fst (stream (constant_server (streaming_response lines))
              Reference.decode Reference.json_loads
              demo_client "Hi" None 4096 0.7%float world0).

(** A frame with nothing to emit: its first choice is an object with no
    [delta], or with a [delta] that is an object with no [content]. *)
Definition no_fragment (data : JSON) : bool :=
  match data with
  | JDict d =>
      match dict_get d "choices" with
      | Some (JList (JDict choice :: _)) =>
          match dict_get choice "delta" with
          | None => true
          | Some (JDict delta) =>
              match dict_get delta "content" with
              | None => true
              | Some _ => false
              end
          | Some _ => false
          end
      | _ => false
      end
  | _ => false
  end.

(** A line that the loop of [get_config] passes over: a comment, a line
    with no [=], or an entry under a key that is neither of the two key
    names. *)
Definition ignored_line (raw : string) : bool :=
  negb (has_entry "cerebras_api_key" raw)
  && negb (has_entry "cerebras_model" raw).

(** What [chat] answers for a response: the error for a status that is
    not 200, and else the value under [choices], [0], [message],
    [content] of the body read as JSON. *)
Definition chat_outcome (resp : Response) : result JSON :=
  if negb (status resp =? 200)%Z then Raise (api_error resp)
  else
    data ← json resp;
    choices ← Py.getitem data "choices";
    choice ← Py.getitem_0 choices;
    message ← Py.getitem choice "message";
    Py.getitem message "content".

(** The fragment a frame carries: the value under [content] of the
    [delta] object of its first choice. *)
Definition fragment_of (data : JSON) : option JSON :=
  match data with
  | JDict d =>
      match dict_get d "choices" with
      | Some (JList (JDict choice :: _)) =>
          match dict_get choice "delta" with
          | Some (JDict delta) => dict_get delta "content"
          | _ => None
          end
      | _ => None
      end
  | _ => None
  end.

(** A line of a body that carries the fragment [v]: it decodes to text
    that, blanks apart, is [data: ] and a payload read as a frame whose
    fragment is [v]. *)
Definition carries (decode : list Byte.byte -> option string)
    (json_loads : string -> option JSON) (raw : list Byte.byte) (v : JSON)
    : Prop :=
  exists s payload data,
    decode raw = Some s
    /\ PyStr.strip s = "data: " +:+ payload
    /\ payload <> "[DONE]"
    /\ json_loads payload = Some data
    /\ fragment_of data = Some v.

(** A response with status 200 whose body read as JSON is [data]. *)
Definition json_response (data : JSON) : Response :=
  mkResponse 200 EmptyString (Ok data) [].

(** A body whose lines are frames that carry a fragment, lines that do
    not start with [data: ] (blank lines among them) and [data: [DONE]]
    lines, with the fragments of its frames in order. *)
Inductive body_yields (decode : list Byte.byte -> option string)
    (json_loads : string -> option JSON)
    : list (list Byte.byte) -> list JSON -> Prop :=
| body_end : body_yields decode json_loads [] []
| body_frame raw v rest vs :
    carries decode json_loads raw v ->
    body_yields decode json_loads rest vs ->
    body_yields decode json_loads (raw :: rest) (v :: vs)
| body_other raw s rest vs :
    decode raw = Some s ->
    PyStr.startswith (PyStr.strip s) "data: " = false ->
    body_yields decode json_loads rest vs ->
    body_yields decode json_loads (raw :: rest) vs
| body_done raw s rest vs :
    decode raw = Some s ->
    PyStr.strip s = "data: [DONE]" ->
    body_yields decode json_loads rest vs ->
    body_yields decode json_loads (raw :: rest) vs.

(** A frame with the value [v] as its fragment. *)
Definition frame_of (v : JSON) : JSON :=
  JDict [("choices", JList [JDict [("delta", JDict [("content", v)])]])].

(** The request of [chat] with the [stream] key set. *)
Definition with_stream (r : Request) : Request :=
  mkRequest (url r) (req_headers r)
            (mkBody (body_model (req_json r)) (body_messages (req_json r))
                    (body_max_tokens (req_json r))
                    (body_temperature (req_json r)) (Some true)).

(** The calls of [print] for the fragments of a stream: each fragment,
    with nothing after it. *)
Definition printed_fragments (vs : list JSON) : list printed :=
  map (fun v => PrintObj v EmptyString) vs.

(** The commands that the parser of the command line lets through: the
    name of a preset is one of the names of [PRESETS]. *)
Definition valid_command (command : Command) : bool :=
  match command with
  | CmdPreset name _ _ =>
      existsb (fun item => String.eqb (fst item) name) PRESETS
  | _ => true
  end.

(** Is the command [complete] with the [--stream] flag? *)
Definition streaming (command : Command) : bool :=
  match command with
  | CmdComplete _ _ true => true
  | _ => false
  end.

(** The temperature of the request of a command. *)
Definition command_temperature (command : Command) : float :=
  match command with
  | CmdCode _ _ _ | CmdPreset _ _ _ => 0.3%float
  | _ => 0.7%float
  end.

(** The prompt of the [chat] command. *)
Definition chat_prompt (message : string) (context : option string) : string :=
  match context with
  | Some (String c t) =>
      "Context:" +:+ newline +:+ String c t +:+ newline +:+ newline
      +:+ message
  | _ => message
  end.

(** The prompt of a preset: its text, and the code in a block. *)
Definition preset_prompt_of (text context : string) : string :=
  text +:+ newline +:+ newline +:+ fence +:+ newline +:+ context
  +:+ newline +:+ fence.

(** A response whose body holds one undecodable line between two
    frames. *)
Definition broken_response : Response :=
  mkResponse 200 EmptyString (Raise TypeError)
    [body_line ("data: " +:+ payload_Hel); [Byte.xff];
     body_line ("data: " +:+ payload_lo)].

(** An environment with the key [k] and nothing else. *)
Definition key_environ : gmap string string :=
  <["CEREBRAS_API_KEY" := "k"]> ∅.

(** * Properties *)

(** ** The config file, line by line *)

Lemma prefix_split_1 sep s :
  String.prefix sep s = true ->
  PyStr.split_1 sep s = [EmptyString; PyStr.drop (String.length sep) s].
Proof. intros H. destruct s; simpl; simpl in H; rewrite H; reflexivity. Qed.

(** Where the separator occurs, [split] answers two strings. *)
Lemma split_1_two sep s :
  PyStr.contains sep s = true ->
  exists a b, PyStr.split_1 sep s = [a; b].
Proof.
  induction s as [|c t IH]; intros H.
  - cbn [PyStr.contains] in H. rewrite orb_false_r in H.
    rewrite (prefix_split_1 _ _ H). eauto.
  - cbn [PyStr.contains] in H.
    destruct (String.prefix sep (String c t)) eqn:E.
    + rewrite (prefix_split_1 _ _ E). eauto.
    + cbn [orb] in H. destruct (IH H) as (a & b & Hab).
      cbn [PyStr.split_1]. rewrite E, Hab. eauto.
Qed.

(** A line acts on the configuration through its entry alone, and raises
    nothing. *)
Lemma config_line_entry config raw :
  config_line config raw =
  Ok match entry raw with
     | Some (k, v) =>
         if String.eqb k "cerebras_api_key"
            && negb (PyStr.truthy (cfg_api_key config))
         then set_api_key config (Some v)
         else if String.eqb k "cerebras_model" then set_model config v
         else config
     | None => config
     end.
Proof.
  unfold config_line, entry.
  destruct (PyStr.contains "=" (PyStr.strip raw)
            && negb (PyStr.startswith (PyStr.strip raw) "#")) eqn:G;
    [|reflexivity].
  apply andb_true_iff in G as [G _].
  destruct (split_1_two _ _ G) as (a & b & ->).
  repeat match goal with |- context [if ?c then _ else _] =>
    destruct c end; reflexivity.
Qed.

Lemma lines_model_acc f v d :
  default d (lines_model f (Some v)) = default v (lines_model f None).
Proof.
  revert v d. induction f as [|raw rest IH]; intros v d; [reflexivity|].
  cbn [lines_model].
  destruct (entry raw) as [[k w]|]; [|apply IH].
  destruct (String.eqb k "cerebras_model"); [|apply IH].
  rewrite (IH w d), (IH w v). reflexivity.
Qed.

(** The configuration after the lines of a file: reading raises nothing;
    the model is that of the last model entry, the key that of the first
    key entry with a value unless the configuration had a key already. *)
Lemma config_lines_spec f c0 :
  exists c,
    config_lines c0 f = Ok c
    /\ cfg_model c = default (cfg_model c0) (lines_model f None)
    /\ cfg_base_url c = cfg_base_url c0
    /\ nonempty (cfg_api_key c)
       = or_opt (cfg_api_key c0) (lines_api_key f).
Proof.
  revert c0. induction f as [|raw rest IH]; intros c0.
  - exists c0. repeat split.
  - cbn [config_lines lines_model lines_api_key].
    rewrite config_line_entry. cbn [mbind result_bind].
    destruct (entry raw) as [[k v]|]; [|apply IH].
    destruct (String.eqb k "cerebras_api_key") eqn:Ek.
    + assert (String.eqb k "cerebras_model" = false) as ->.
      { apply String.eqb_eq in Ek. subst k. reflexivity. }
      cbn [andb].
      destruct (PyStr.truthy (cfg_api_key c0)) eqn:T; cbn [negb].
      * destruct (IH c0) as (c & H1 & H2 & H3 & H4).
        exists c. repeat split; try assumption.
        rewrite H4. unfold or_opt. rewrite T. reflexivity.
      * destruct (IH (set_api_key c0 (Some v))) as (c & H1 & H2 & H3 & H4).
        exists c. repeat split; try assumption.
        rewrite H4. unfold or_opt. rewrite T. cbn [set_api_key cfg_api_key].
        destruct v; reflexivity.
    + cbn [andb].
      destruct (String.eqb k "cerebras_model") eqn:Em.
      * destruct (IH (set_model c0 v)) as (c & H1 & H2 & H3 & H4).
        exists c. repeat split; try assumption.
        -- rewrite H2. cbn [set_model cfg_model].
           symmetry. apply lines_model_acc.
        -- rewrite H4. cbn [set_model cfg_api_key].
           destruct v; reflexivity.
      * destruct (IH c0) as (c & H1 & H2 & H3 & H4).
        exists c. repeat split; try assumption.
        rewrite H4. destruct v; reflexivity.
Qed.

(** [get_config] raises nothing, whatever the environment and the file. *)
Lemma get_config_spec environ file :
  exists c,
    get_config environ file = Ok c
    /\ cfg_model c
       = default (default "zai-glm-4.7" (environ !! "CEREBRAS_MODEL"))
                 (file_model file)
    /\ cfg_base_url c = "https://api.cerebras.ai/v1"
    /\ nonempty (cfg_api_key c)
       = or_opt (environ !! "CEREBRAS_API_KEY") (file_api_key file).
Proof.
  unfold get_config. destruct file as [f|].
  - apply config_lines_spec.
  - eexists. repeat split.
Qed.

Lemma or_opt_nonempty a x :
  nonempty (or_opt a x) = or_opt a (nonempty x).
Proof.
  unfold nonempty, or_opt.
  destruct (PyStr.truthy a) eqn:Ta; [rewrite Ta|]; reflexivity.
Qed.

Lemma nonempty_cases o :
  (nonempty o = None /\ PyStr.truthy o = false)
  \/ (exists c t, nonempty o = Some (String c t) /\ o = Some (String c t)).
Proof. destruct o as [[|c t]|]; [left|right; eauto|left]; split; reflexivity. Qed.

(** Construction is the layered resolution: the client with the first key
    and the first model the layers give, or the error when no layer gives
    a key. *)
Lemma init_layered api_key model environ file :
  CerebrasClient.__init__ api_key model environ file =
  match layered_api_key api_key environ file with
  | Some key =>
      Ok (mkClient key (layered_model model environ file)
                   "https://api.cerebras.ai/v1")
  | None => Raise (ValueError missing_key_message)
  end.
Proof.
  unfold CerebrasClient.__init__, layered_api_key, layered_model.
  destruct (get_config_spec environ file) as (c & -> & Hm & Hu & Hk).
  cbn [mbind result_bind]. rewrite Hm, Hu, <- Hk, <- or_opt_nonempty.
  destruct (nonempty_cases (or_opt api_key (cfg_api_key c)))
    as [[-> ->]|(a & t & -> & ->)]; reflexivity.
Qed.

Lemma lines_model_app a b acc :
  lines_model (a ++ b) acc = lines_model b (lines_model a acc).
Proof.
  revert acc. induction a as [|raw rest IH]; intros acc; [reflexivity|].
  cbn [app lines_model]. apply IH.
Qed.

Lemma lines_model_lack f acc :
  lines_lack "cerebras_model" f = true -> lines_model f acc = acc.
Proof.
  induction f as [|raw rest IH]; [reflexivity|].
  cbn [lines_lack forallb lines_model]. unfold has_entry.
  intros [H1 H2]%andb_true_iff.
  destruct (entry raw) as [[k v]|]; [|exact (IH H2)].
  apply negb_true_iff in H1. rewrite H1. exact (IH H2).
Qed.

(** The model of a file is the value of its last model entry. *)
Lemma lines_model_last pre raw post v acc :
  entry raw = Some ("cerebras_model", v) ->
  lines_lack "cerebras_model" post = true ->
  lines_model (pre ++ raw :: post) acc = Some v.
Proof.
  intros E L. rewrite lines_model_app. cbn [lines_model]. rewrite E.
  cbn. apply lines_model_lack, L.
Qed.

Lemma lines_api_key_app a b :
  lines_api_key a = None -> lines_api_key (a ++ b) = lines_api_key b.
Proof.
  induction a as [|raw rest IH]; [reflexivity|].
  cbn [app lines_api_key].
  destruct (entry raw) as [[k [|c t]]|]; try exact IH.
  destruct (String.eqb k "cerebras_api_key"); [discriminate|exact IH].
Qed.

Lemma lines_api_key_lack f :
  lines_lack "cerebras_api_key" f = true -> lines_api_key f = None.
Proof.
  induction f as [|raw rest IH]; [reflexivity|].
  cbn [lines_lack forallb lines_api_key]. unfold has_entry.
  intros [H1 H2]%andb_true_iff.
  destruct (entry raw) as [[k [|c t]]|]; try exact (IH H2).
  apply negb_true_iff in H1. rewrite H1. exact (IH H2).
Qed.

Lemma file_api_key_lack file :
  file_lacks "cerebras_api_key" file = true -> file_api_key file = None.
Proof. destruct file; [apply lines_api_key_lack|reflexivity]. Qed.

(** X5: without a model entry in the file (or without a file), the model
    of the client is the explicit one when it is given and not empty,
    else the environment's, and the built-in name when the environment
    has none. *)
Lemma model_environment_then_default api_key model environ file key :
  file_lacks "cerebras_model" file = true ->
  layered_api_key api_key environ file = Some key ->
  CerebrasClient.__init__ api_key model environ file =
  Ok (mkClient key
        (or_str model (default "zai-glm-4.7" (environ !! "CEREBRAS_MODEL")))
        "https://api.cerebras.ai/v1").
Proof.
  intros L K. rewrite init_layered, K. unfold layered_model.
  destruct file as [f|]; [|reflexivity].
  cbn [file_model]. rewrite (lines_model_lack f None L). reflexivity.
Qed.

(** ** Configuration precedence *)

(** C1, as stated, fails: with [CEREBRAS_MODEL] set to [llama3.1-8b] in
    the environment and a [cerebras_model] line in the config file, the
    resolved model is the value of the file, not that of the
    environment. *)
Lemma C1_environment_model_overridden :
  model_environ !! "CEREBRAS_MODEL" = Some "llama3.1-8b"
  /\ has_entry "cerebras_model" "cerebras_model = qwen-3-32b" = true
  /\ CerebrasClient.__init__ None None model_environ model_file
     = Ok (mkClient "k" "qwen-3-32b" url_v1)
  /\ "qwen-3-32b" <> "llama3.1-8b".
Proof. repeat split; [vm_compute; reflexivity..|discriminate]. Qed.

(** C1, amended: the override order of the model is explicit argument,
    then config file, then environment, then built-in name. For every
    environment where [CEREBRAS_MODEL] is set and every config file with
    a [cerebras_model] line, the resolved model is the value of the last
    such line of the file, unless an explicit model that is not empty is
    given, which is then the resolved model. Construction is considered
    where a key is resolved, [key] being that key. *)
Theorem C1_model_file_over_environment
    (api_key model : option string) (environ : gmap string string)
    (pre post : list string) (raw e v key : string) :
  environ !! "CEREBRAS_MODEL" = Some e ->
  entry raw = Some ("cerebras_model", v) ->
  lines_lack "cerebras_model" post = true ->
  layered_api_key api_key environ (Some (pre ++ raw :: post)) = Some key ->
  CerebrasClient.__init__ api_key model environ (Some (pre ++ raw :: post))
  = Ok (mkClient key (or_str model v) url_v1).
Proof.
  intros _ E L K. rewrite init_layered, K. unfold layered_model.
  cbn [file_model]. rewrite (lines_model_last pre raw post v None E L).
  reflexivity.
Qed.

Lemma C1_model_file_over_environment_witness :
  CerebrasClient.__init__ None None model_environ
    (Some (["# settings"] ++ "cerebras_model = qwen-3-32b" :: ["x = y"]))
  = Ok (mkClient "k" "qwen-3-32b" url_v1).
Proof.
  apply (C1_model_file_over_environment None None model_environ
           ["# settings"] ["x = y"] "cerebras_model = qwen-3-32b"
           "llama3.1-8b" "qwen-3-32b" "k");
    vm_compute; reflexivity.
Defined.

(** ** The API key *)

(** C6: with no [CEREBRAS_API_KEY] in the environment, no
    [cerebras_api_key] entry in the config file (or no file) and no
    explicit key, construction raises the configuration error. No request
    is sent before it: the program ends with status 1, having written the
    message on the error stream, and the requests are those sent before
    it started. *)
Theorem C6_missing_key_raises_before_network
    (model : option string) (environ : gmap string string)
    (file : option (list string)) :
  environ !! "CEREBRAS_API_KEY" = None ->
  file_lacks "cerebras_api_key" file = true ->
  CerebrasClient.__init__ None model environ file
  = Raise (ValueError missing_key_message)
  /\ forall server decode json_loads command w,
       main server decode json_loads environ file model command w
       = (Raise (SystemExit 1),
          mkWorld (requests w) (stdout w)
                  (stderr w ++ [PrintStr ("Error: " +:+ missing_key_message)])).
Proof.
  intros E L.
  assert (CerebrasClient.__init__ None model environ file
          = Raise (ValueError missing_key_message)) as H.
  { rewrite init_layered. unfold layered_api_key.
    rewrite E, (file_api_key_lack file L). reflexivity. }
  split; [exact H|].
  intros server decode json_loads command w.
  unfold main. rewrite H. reflexivity.
Qed.

Lemma C6_missing_key_raises_before_network_witness :
  CerebrasClient.__init__ None None (<["CEREBRAS_MODEL" := "qwen-3-32b"]> ∅)
    (Some ["# no key here"; "cerebras_model = llama3.1-8b"])
  = Raise (ValueError missing_key_message).
Proof.
  apply (C6_missing_key_raises_before_network None
           (<["CEREBRAS_MODEL" := "qwen-3-32b"]> ∅)
           (Some ["# no key here"; "cerebras_model = llama3.1-8b"]));
    vm_compute; reflexivity.
Defined.

(** C7, as stated, fails: [CEREBRAS_API_KEY] is set, to the empty string,
    there is no config file, and construction raises. And with the
    variable unset, a config file that holds the line
    [cerebras_api_key = "abc"] after another key line gives the key of
    the earlier line. *)
Lemma C7_empty_environment_key_raises :
  empty_key_environ !! "CEREBRAS_API_KEY" = Some EmptyString
  /\ CerebrasClient.__init__ None None empty_key_environ None
     = Raise (ValueError missing_key_message)
  /\ CerebrasClient.__init__ None None ∅
       (Some ["cerebras_api_key = xyz"; abc_line])
     = Ok (mkClient "xyz" "zai-glm-4.7" url_v1).
Proof. repeat split; vm_compute; reflexivity. Qed.

(** C7, amended: for every environment where [CEREBRAS_API_KEY] is set to
    a string that is not empty, construction (with no explicit key)
    succeeds and uses that string as it is, whatever the config file
    holds; for every environment without the variable and every config
    file where the line [cerebras_api_key = "abc"] comes before any other
    key entry with a value, construction succeeds and uses [abc], the
    quotes stripped. *)
Theorem C7_key_environment_then_file
    (model : option string) (environ : gmap string string) :
  (forall (file : option (list string)) (k : string),
     environ !! "CEREBRAS_API_KEY" = Some k ->
     k <> EmptyString ->
     CerebrasClient.__init__ None model environ file
     = Ok (mkClient k (layered_model model environ file) url_v1))
  /\ (forall pre post : list string,
        environ !! "CEREBRAS_API_KEY" = None ->
        lines_api_key pre = None ->
        CerebrasClient.__init__ None model environ
          (Some (pre ++ abc_line :: post))
        = Ok (mkClient "abc"
                (layered_model model environ (Some (pre ++ abc_line :: post)))
                url_v1)).
Proof.
  split.
  - intros file k E Hk. rewrite init_layered. unfold layered_api_key.
    rewrite E. destruct k as [|c t]; [contradiction|reflexivity].
  - intros pre post E Hpre. rewrite init_layered. unfold layered_api_key.
    rewrite E. cbn [or_opt PyStr.truthy file_api_key].
    rewrite (lines_api_key_app pre _ Hpre). reflexivity.
Qed.

Lemma C7_key_environment_then_file_witness :
  CerebrasClient.__init__ None None (<["CEREBRAS_API_KEY" := "k"]> ∅)
    (Some [abc_line])
  = Ok (mkClient "k" "zai-glm-4.7" url_v1)
  /\ CerebrasClient.__init__ None None ∅
       (Some (["# key"; "cerebras_api_key ="] ++ abc_line :: ["cerebras_api_key = xyz"]))
     = Ok (mkClient "abc" "zai-glm-4.7" url_v1).
Proof.
  split.
  - etransitivity.
    + apply (proj1 (C7_key_environment_then_file None
                      (<["CEREBRAS_API_KEY" := "k"]> ∅)) (Some [abc_line]) "k");
        [vm_compute; reflexivity|discriminate].
    + vm_compute; reflexivity.
  - etransitivity.
    + apply (proj2 (C7_key_environment_then_file None ∅)
               ["# key"; "cerebras_api_key ="] ["cerebras_api_key = xyz"]);
        vm_compute; reflexivity.
    + vm_compute; reflexivity.
Defined.

(** C10: an empty key counts as no key at every layer. An explicit
    argument that is the empty string is as no argument; a
    [CEREBRAS_API_KEY] that is the empty string is as a variable that is
    not set; and when neither gives a key, the key is the first value
    that is not empty among the [cerebras_api_key] entries of the config
    file, construction raising the configuration error when there is
    none. *)
Theorem C10_empty_key_is_absent
    (api_key model : option string) (environ : gmap string string)
    (file : option (list string)) :
  (PyStr.truthy api_key = false ->
   CerebrasClient.__init__ api_key model environ file
   = CerebrasClient.__init__ None model environ file)
  /\ (PyStr.truthy (environ !! "CEREBRAS_API_KEY") = false ->
      CerebrasClient.__init__ api_key model environ file
      = CerebrasClient.__init__ api_key model
          (delete "CEREBRAS_API_KEY" environ) file)
  /\ (PyStr.truthy api_key = false ->
      PyStr.truthy (environ !! "CEREBRAS_API_KEY") = false ->
      CerebrasClient.__init__ api_key model environ file
      = match file_api_key file with
        | Some key =>
            Ok (mkClient key (layered_model model environ file) url_v1)
        | None => Raise (ValueError missing_key_message)
        end).
Proof.
  split; [|split].
  - intros Ha. rewrite !init_layered. unfold layered_api_key, or_opt.
    rewrite Ha. reflexivity.
  - intros He. rewrite !init_layered.
    unfold layered_api_key, layered_model, or_opt.
    rewrite He, lookup_delete_eq, lookup_delete_ne by discriminate.
    reflexivity.
  - intros Ha He. rewrite init_layered. unfold layered_api_key, or_opt.
    rewrite Ha, He. reflexivity.
Qed.

Lemma C10_empty_key_is_absent_witness :
  CerebrasClient.__init__ (Some EmptyString) None
    (<["CEREBRAS_API_KEY" := "k"]> ∅) None
  = Ok (mkClient "k" "zai-glm-4.7" url_v1)
  /\ CerebrasClient.__init__ None None empty_key_environ (Some [abc_line])
     = Ok (mkClient "abc" "zai-glm-4.7" url_v1)
  /\ CerebrasClient.__init__ (Some EmptyString) None empty_key_environ
       (Some ["cerebras_api_key ="])
     = Raise (ValueError missing_key_message).
Proof.
  split; [|split].
  - etransitivity.
    + apply (proj1 (C10_empty_key_is_absent (Some EmptyString) None
                      (<["CEREBRAS_API_KEY" := "k"]> ∅) None)).
      reflexivity.
    + vm_compute; reflexivity.
  - etransitivity.
    + apply (proj1 (proj2 (C10_empty_key_is_absent None None
                             empty_key_environ (Some [abc_line])))).
      vm_compute; reflexivity.
    + vm_compute; reflexivity.
  - etransitivity.
    + apply (proj2 (proj2 (C10_empty_key_is_absent (Some EmptyString) None
                             empty_key_environ
                             (Some ["cerebras_api_key ="]))));
        vm_compute; reflexivity.
    + vm_compute; reflexivity.
Defined.

Lemma append_nil_r (s : string) : s +:+ EmptyString = s.
Proof.
  induction s as [|x s IH]; [reflexivity|].
  change (String x (s +:+ EmptyString) = String x s). now rewrite IH.
Qed.

Lemma append_assoc (a b c : string) : (a +:+ b) +:+ c = a +:+ b +:+ c.
Proof.
  induction a as [|x a IH]; [reflexivity|].
  change (String x ((a +:+ b) +:+ c) = String x (a +:+ b +:+ c)).
  now rewrite IH.
Qed.

(** [chat] sends one request, with the messages it is given, whatever the
    response. *)
Lemma chat_sent server self messages max_tokens temperature w :
  snd (chat server self messages max_tokens temperature w)
  = sent w (chat_request self messages max_tokens temperature).
Proof.
  unfold chat, mbind, M_bind, post, raise, lift. cbn [fst snd].
  fold (chat_request self messages max_tokens temperature).
  destruct (negb _); [reflexivity|].
  destruct (json _); reflexivity.
Qed.

(** C5: when the status of the response is not 200, [chat] returns no
    result: it raises the error whose message is [Cerebras API error],
    the status in decimal, a colon and the body text. The message holds
    the status code and the body text as they are. *)
Theorem C5_non_200_raises_api_error
    (server : Request -> Response) (self : Client)
    (messages : list Message) (max_tokens : Z) (temperature : float)
    (w : World) :
  let request := chat_request self messages max_tokens temperature in
  let resp := server request in
  status resp <> 200%Z ->
  exists msg,
    chat server self messages max_tokens temperature w
    = (Raise (Exception msg), sent w request)
    /\ msg = "Cerebras API error " +:+ PyStr.of_int (status resp)
             +:+ ": " +:+ text resp
    /\ PyStr.occurs_in (PyStr.of_int (status resp)) msg
    /\ PyStr.occurs_in (text resp) msg.
Proof.
  intros request resp H. eexists. split; [|split; [reflexivity|split]].
  - apply Z.eqb_neq in H. subst resp request.
    unfold chat, mbind, M_bind, post, raise.
    fold (chat_request self messages max_tokens temperature).
    rewrite H. reflexivity.
  - exists "Cerebras API error ", (": " +:+ text resp). reflexivity.
  - exists ("Cerebras API error " +:+ PyStr.of_int (status resp) +:+ ": "),
      EmptyString.
    rewrite append_nil_r, !append_assoc. reflexivity.
Qed.

Lemma C5_non_200_raises_api_error_witness :
  fst (chat (constant_server unauthorized) demo_client
            [mkMessage "user" "Hi"] 4096 0.7%float world0)
  = Raise (Exception
             ("Cerebras API error 401: " +:+ q "{'message':'Wrong API Key'}")).
Proof.
  destruct (C5_non_200_raises_api_error (constant_server unauthorized)
              demo_client [mkMessage "user" "Hi"] 4096 0.7%float world0)
    as (msg & H & -> & _).
  - vm_compute. discriminate.
  - rewrite H. reflexivity.
Defined.

(** ** The request builders *)

(** C8: for every prompt and every system string, given or not,
    [complete] builds the conversation as the optional system message
    followed by the user message and passes exactly that sequence to
    [chat], so that the request sent carries it. In particular
    [complete("Hi", system="Be terse")] passes the system message
    [Be terse] and then the user message [Hi], and with no system
    argument the user message alone is passed. The system message is
    there when the system string is given and not empty. *)
Theorem C8_complete_messages
    (server : Request -> Response) (self : Client) (prompt : string)
    (system : option string) (max_tokens : Z) (temperature : float)
    (w : World) :
  complete server self prompt system max_tokens temperature
  = chat server self (conversation prompt system) max_tokens temperature
  /\ requests (snd (complete server self prompt system max_tokens
                             temperature w))
     = requests w
       ++ [chat_request self (conversation prompt system)
                        max_tokens temperature]
  /\ complete server self "Hi" (Some "Be terse") max_tokens temperature
     = chat server self
         [mkMessage "system" "Be terse"; mkMessage "user" "Hi"]
         max_tokens temperature
  /\ complete server self prompt None max_tokens temperature
     = chat server self [mkMessage "user" prompt] max_tokens temperature.
Proof.
  assert (complete server self prompt system max_tokens temperature
          = chat server self (conversation prompt system)
                 max_tokens temperature) as E.
  { unfold complete, conversation, system_message.
    destruct system as [[|c t]|]; reflexivity. }
  split; [exact E|split; [|split; reflexivity]].
  rewrite E, chat_sent. reflexivity.
Qed.

(** C9, as stated, fails: a context is supplied, the empty string, and
    the prompt is the task alone, with no block before it. *)
Lemma C9_empty_context_has_no_block :
  requests (snd (code (constant_server ok_response) demo_client
                      "reverse a list" (Some EmptyString) "Go" world0))
  = [code_request demo_client "Go" "reverse a list"]
  /\ PyStr.contains fence "reverse a list" = false.
Proof. split; vm_compute; reflexivity. Qed.

(** C9, amended: for every task, context and language, [code] puts the
    language string as it is inside its fixed system instruction, puts
    the context in a fenced block before the task exactly when a context
    that is not empty is supplied (the prompt is the task alone
    otherwise), and calls [complete] with temperature 0.3, so that the
    request sent carries the instruction, the prompt and that
    temperature. *)
Theorem C9_code_request
    (server : Request -> Response) (self : Client) (task language : string)
    (w : World) :
  PyStr.occurs_in language (code_system language)
  /\ (forall c t,
        code server self task (Some (String c t)) language
        = complete server self (with_context (String c t) task)
                   (Some (code_system language)) 4096 0.3%float
        /\ requests (snd (code server self task (Some (String c t))
                               language w))
           = requests w
             ++ [code_request self language
                   (with_context (String c t) task)])
  /\ (forall context,
        context = None \/ context = Some EmptyString ->
        code server self task context language
        = complete server self task (Some (code_system language))
                   4096 0.3%float
        /\ requests (snd (code server self task context language w))
           = requests w ++ [code_request self language task]).
Proof.
  split; [|split].
  - exists "You are an expert ",
      (" programmer. " +:+ newline
       +:+ "Output only code, no explanations unless asked." +:+ newline
       +:+ "Follow best practices and include error handling.").
    reflexivity.
  - intros c t. split; [reflexivity|].
    unfold code, complete. cbn [String.append app].
    rewrite chat_sent. reflexivity.
  - intros context [-> | ->]; (split; [reflexivity|]);
      unfold code, complete; cbn [String.append app];
      rewrite chat_sent; reflexivity.
Qed.

Lemma C9_code_request_witness :
  requests (snd (code (constant_server ok_response) demo_client
                      "reverse a list" None "Go" world0))
  = [code_request demo_client "Go" "reverse a list"]
  /\ requests (snd (code (constant_server ok_response) demo_client
                         "reverse a list" (Some "xs = [1, 2]") "Go" world0))
     = [code_request demo_client "Go"
          (with_context "xs = [1, 2]" "reverse a list")].
Proof.
  split.
  - apply (proj2 (proj2 (C9_code_request (constant_server ok_response)
                           demo_client "reverse a list" "Go" world0)) None).
    left; reflexivity.
  - apply (proj1 (proj2 (C9_code_request (constant_server ok_response)
                           demo_client "reverse a list" "Go" world0))).
Defined.

(** ** Streaming *)

Section StreamFacts.

Variable server : Request -> Response.
Variable decode : list Byte.byte -> option string.
Variable json_loads : string -> option JSON.

(** [stream] sends one request; on status 200 its run is the run of the
    loop over the lines of the body. *)
Lemma stream_run self prompt system max_tokens temperature w :
  let request := stream_request self prompt system max_tokens temperature in
  stream server decode json_loads self prompt system max_tokens
         temperature w
  = (if negb (status (server request) =? 200)%Z
     then mkRun [] (Raise (api_error (server request)))
     else stream_lines decode json_loads (body_lines (server request)),
     sent w request).
Proof.
  unfold stream, post, stream_request, conversation, system_message.
  destruct system as [[|c t]|]; cbn [app];
    match goal with |- context [negb ?b] => destruct (negb b) end;
    reflexivity.
Qed.

(** A line that yields nothing and raises nothing can be left out. *)
Lemma stream_lines_skip pre raw post :
  stream_line decode json_loads raw = Ok None ->
  stream_lines decode json_loads (pre ++ raw :: post)
  = stream_lines decode json_loads (pre ++ post).
Proof.
  intros H. induction pre as [|l pre IH]; cbn [app stream_lines].
  - rewrite H. reflexivity.
  - destruct (stream_line decode json_loads l) as [[v|]|e];
      [rewrite IH; reflexivity|exact IH|reflexivity].
Qed.

(** The line read after [data: ]: what the loop does with its text. *)
Lemma stream_line_data raw s payload :
  decode raw = Some s ->
  PyStr.strip s = "data: " +:+ payload ->
  stream_line decode json_loads raw
  = if String.eqb payload "[DONE]" then Ok None
    else match json_loads payload with
         | None => Ok None
         | Some data =>
             choices ← Py.getitem data "choices";
             choice ← Py.getitem_0 choices;
             delta ← Py.get choice "delta";
             present ← Py.contains "content" delta;
             if present : bool
             then fragment ← Py.getitem delta "content"; Ok (Some fragment)
             else Ok None
         end.
Proof.
  intros D S. unfold stream_line. rewrite D. cbn zeta. rewrite S.
  replace (PyStr.startswith ("data: " +:+ payload) "data: ") with true
    by (destruct payload; reflexivity).
  change (PyStr.drop 6 ("data: " +:+ payload)) with payload.
  change (String.eqb ("data: " +:+ payload) "data: [DONE]")
    with (String.eqb payload "[DONE]").
  destruct (String.eqb payload "[DONE]"); reflexivity.
Qed.

Lemma stream_line_done raw s :
  decode raw = Some s ->
  PyStr.strip s = "data: [DONE]" ->
  stream_line decode json_loads raw = Ok None.
Proof.
  intros D S. rewrite (stream_line_data raw s "[DONE]" D S). reflexivity.
Qed.

Lemma stream_line_frame raw s payload fragment :
  decode raw = Some s ->
  PyStr.strip s = "data: " +:+ payload ->
  payload <> "[DONE]" ->
  json_loads payload = Some (frame fragment) ->
  stream_line decode json_loads raw = Ok (Some (JStr fragment)).
Proof.
  intros D S N J. rewrite (stream_line_data raw s payload D S), J.
  apply String.eqb_neq in N. rewrite N. reflexivity.
Qed.

End StreamFacts.

(** C2, as stated, fails: a fragment is emitted from a line that comes
    after [data: [DONE]]. *)
Lemma C2_fragment_after_done :
  reference_run ["data: " +:+ payload_Hel; "data: [DONE]";
                 "data: " +:+ payload_lo]
  = mkRun [JStr "Hel"; JStr "lo"] (Ok tt).
Proof. vm_compute. reflexivity. Qed.

(** C2, amended: for every streaming response body, the line
    [data: [DONE]] emits no fragment and raises nothing, and the loop
    goes on with the lines after it: the fragments emitted and the end of
    the sequence are those of the body without that line. *)
Theorem C2_done_line_is_skipped
    (server : Request -> Response)
    (decode : list Byte.byte -> option string)
    (json_loads : string -> option JSON)
    (self : Client) (prompt : string) (system : option string)
    (max_tokens : Z) (temperature : float) (w : World)
    (pre post : list (list Byte.byte)) (raw : list Byte.byte) (s : string) :
  let request := stream_request self prompt system max_tokens temperature in
  status (server request) = 200%Z ->
  body_lines (server request) = pre ++ raw :: post ->
  decode raw = Some s ->
  PyStr.strip s = "data: [DONE]" ->
  stream_line decode json_loads raw = Ok None
  /\ fst (stream server decode json_loads self prompt system max_tokens
                 temperature w)
     = stream_lines decode json_loads (pre ++ post).
Proof.
  intros request St B D S.
  pose proof (stream_line_done decode json_loads raw s D S) as L.
  split; [exact L|].
  rewrite stream_run. fold request. rewrite St, B. cbn [fst Z.eqb negb].
  apply stream_lines_skip, L.
Qed.

Lemma C2_done_line_is_skipped_witness :
  reference_run ["data: " +:+ payload_Hel; "data: [DONE]";
                 "data: " +:+ payload_lo]
  = stream_lines Reference.decode Reference.json_loads
      ([body_line ("data: " +:+ payload_Hel)]
       ++ [body_line ("data: " +:+ payload_lo)]).
Proof.
  apply (C2_done_line_is_skipped
           (constant_server
              (streaming_response
                 ["data: " +:+ payload_Hel; "data: [DONE]";
                  "data: " +:+ payload_lo]))
           Reference.decode Reference.json_loads demo_client "Hi" None
           4096 0.7%float world0
           [body_line ("data: " +:+ payload_Hel)]
           [body_line ("data: " +:+ payload_lo)]
           (body_line "data: [DONE]") ("data: [DONE]" +:+ newline));
    vm_compute; reflexivity.
Defined.

(** C3, as stated, fails: the line [data: {}] is read as JSON, a frame of
    unexpected shape, and the loop raises [KeyError] for it; the line
    after it is not read. *)
Lemma C3_unexpected_shape_raises :
  Reference.json_loads "{}" = Some (JDict [])
  /\ reference_run ["data: {}"; "data: " +:+ payload_lo]
     = mkRun [] (Raise (KeyError "choices")).
Proof. split; vm_compute; reflexivity. Qed.

(** C3, amended: for every streaming line whose text after the prefix
    [data: ] fails to be read as JSON, the loop raises nothing for that
    line: the line yields no fragment and the loop goes on with the lines
    after it. The same holds for a frame whose first choice is an object
    with no [delta], or with a [delta] object with no [content]. *)
Theorem C3_unreadable_line_is_skipped
    (server : Request -> Response)
    (decode : list Byte.byte -> option string)
    (json_loads : string -> option JSON)
    (self : Client) (prompt : string) (system : option string)
    (max_tokens : Z) (temperature : float) (w : World)
    (pre post : list (list Byte.byte)) (raw : list Byte.byte)
    (s payload : string) :
  let request := stream_request self prompt system max_tokens temperature in
  status (server request) = 200%Z ->
  body_lines (server request) = pre ++ raw :: post ->
  decode raw = Some s ->
  PyStr.strip s = "data: " +:+ payload ->
  match json_loads payload with
  | None => True
  | Some data => no_fragment data = true
  end ->
  stream_line decode json_loads raw = Ok None
  /\ fst (stream server decode json_loads self prompt system max_tokens
                 temperature w)
     = stream_lines decode json_loads (pre ++ post).
Proof.
  intros request St B D S J.
  assert (stream_line decode json_loads raw = Ok None) as L.
  { rewrite (stream_line_data decode json_loads raw s payload D S).
    destruct (String.eqb payload "[DONE]"); [reflexivity|].
    destruct (json_loads payload) as [data|]; [|reflexivity].
    destruct data as [| | | |?|d]; try discriminate J.
    cbn [no_fragment] in J. cbn [Py.getitem].
    destruct (dict_get d "choices") as [[| | | |[|[| | | | |choice] ?]|]|];
      try discriminate J.
    cbn [mbind result_bind Py.getitem_0 Py.get].
    destruct (dict_get choice "delta") as [[| | | | |delta]|];
      try discriminate J;
      cbn [default from_option id mbind result_bind Py.contains Py.getitem];
      [|reflexivity].
    destruct (dict_get delta "content"); [discriminate J|reflexivity]. }
  split; [exact L|].
  rewrite stream_run. fold request. rewrite St, B. cbn [fst Z.eqb negb].
  apply stream_lines_skip, L.
Qed.

Lemma C3_unreadable_line_is_skipped_witness :
  reference_run ["data: " +:+ payload_Hel; q "data: {'choices': [{'del";
                 "data: " +:+ payload_lo]
  = mkRun [JStr "Hel"; JStr "lo"] (Ok tt).
Proof.
  etransitivity.
  - apply (C3_unreadable_line_is_skipped
             (constant_server
                (streaming_response
                   ["data: " +:+ payload_Hel; q "data: {'choices': [{'del";
                    "data: " +:+ payload_lo]))
             Reference.decode Reference.json_loads demo_client "Hi" None
             4096 0.7%float world0
             [body_line ("data: " +:+ payload_Hel)]
             [body_line ("data: " +:+ payload_lo)]
             (body_line (q "data: {'choices': [{'del"))
             (q "data: {'choices': [{'del" +:+ newline)
             (q "{'choices': [{'del"));
      vm_compute; (reflexivity || exact I).
  - vm_compute. reflexivity.
Defined.

(** C4: for a response body of the three lines [data: ] with the frame
    of [Hel], [data: ] with the frame of [lo], and [data: [DONE]],
    [stream] yields the two fragments [Hel] and [lo], in that order, and
    then ends without an exception. The lines are given as bytes that
    decode to the three texts, blanks around them apart, and the two
    payloads are read as the frames they spell. *)
Theorem C4_stream_Hel_lo
    (server : Request -> Response)
    (decode : list Byte.byte -> option string)
    (json_loads : string -> option JSON)
    (self : Client) (prompt : string) (system : option string)
    (max_tokens : Z) (temperature : float) (w : World)
    (l1 l2 l3 : list Byte.byte) (t1 t2 t3 : string) :
  let request := stream_request self prompt system max_tokens temperature in
  status (server request) = 200%Z ->
  body_lines (server request) = [l1; l2; l3] ->
  decode l1 = Some t1 -> PyStr.strip t1 = "data: " +:+ payload_Hel ->
  decode l2 = Some t2 -> PyStr.strip t2 = "data: " +:+ payload_lo ->
  decode l3 = Some t3 -> PyStr.strip t3 = "data: [DONE]" ->
  json_loads payload_Hel = Some (frame "Hel") ->
  json_loads payload_lo = Some (frame "lo") ->
  fst (stream server decode json_loads self prompt system max_tokens
              temperature w)
  = mkRun [JStr "Hel"; JStr "lo"] (Ok tt).
Proof.
  intros request St B D1 S1 D2 S2 D3 S3 J1 J2.
  rewrite stream_run. fold request. rewrite St, B. cbn [fst Z.eqb negb].
  cbn [stream_lines].
  rewrite (stream_line_frame decode json_loads l1 t1 payload_Hel "Hel" D1 S1)
    by (discriminate || exact J1).
  rewrite (stream_line_frame decode json_loads l2 t2 payload_lo "lo" D2 S2)
    by (discriminate || exact J2).
  rewrite (stream_line_done decode json_loads l3 t3 D3 S3).
  reflexivity.
Qed.

Lemma C4_stream_Hel_lo_witness :
  reference_run ["data: " +:+ payload_Hel; "data: " +:+ payload_lo;
                 "data: [DONE]"]
  = mkRun [JStr "Hel"; JStr "lo"] (Ok tt).
Proof.
  apply (C4_stream_Hel_lo
           (constant_server
              (streaming_response
                 ["data: " +:+ payload_Hel; "data: " +:+ payload_lo;
                  "data: [DONE]"]))
           Reference.decode Reference.json_loads demo_client "Hi" None
           4096 0.7%float world0
           (body_line ("data: " +:+ payload_Hel))
           (body_line ("data: " +:+ payload_lo))
           (body_line "data: [DONE]")
           ("data: " +:+ payload_Hel +:+ newline)
           ("data: " +:+ payload_lo +:+ newline)
           ("data: [DONE]" +:+ newline));
    vm_compute; reflexivity.
Defined.

(** ** More on the configuration *)

Lemma config_lines_app c a b :
  config_lines c (a ++ b) = (c' ← config_lines c a; config_lines c' b).
Proof.
  revert c. induction a as [|raw rest IH]; intros c; [reflexivity|].
  cbn [app config_lines]. rewrite config_line_entry.
  cbn [mbind result_bind]. apply IH.
Qed.

Lemma lines_api_key_nonempty f k :
  lines_api_key f = Some k -> k <> EmptyString.
Proof.
  induction f as [|raw rest IH]; [discriminate|].
  cbn [lines_api_key].
  destruct (entry raw) as [[key [|c t]]|]; try exact IH.
  destruct (String.eqb key "cerebras_api_key"); [|exact IH].
  intros [= <-]. discriminate.
Qed.

Lemma layered_api_key_nonempty api_key environ file k :
  layered_api_key api_key environ file = Some k -> k <> EmptyString.
Proof.
  unfold layered_api_key, or_opt.
  destruct api_key as [[|c t]|]; cbn [PyStr.truthy];
    try (intros [= <-]; discriminate);
    (destruct (environ !! "CEREBRAS_API_KEY") as [[|c' t']|];
     cbn [PyStr.truthy]; try (intros [= <-]; discriminate);
     destruct file as [f|]; cbn [file_api_key];
     try discriminate; apply lines_api_key_nonempty).
Qed.

(** A comment and a line with no [=] define no entry. *)
Lemma entry_none raw :
  PyStr.startswith (PyStr.strip raw) "#" = true
  \/ PyStr.contains "=" (PyStr.strip raw) = false ->
  entry raw = None.
Proof.
  unfold entry. intros [H|H]; rewrite H;
    [rewrite andb_false_r|]; reflexivity.
Qed.

Lemma config_line_ignored c raw :
  ignored_line raw = true -> config_line c raw = Ok c.
Proof.
  unfold ignored_line, has_entry. rewrite config_line_entry.
  intros [H1 H2]%andb_true_iff.
  destruct (entry raw) as [[k v]|]; [|reflexivity].
  apply negb_true_iff in H1, H2. rewrite H1, H2. reflexivity.
Qed.

(** X1: [get_config] raises nothing, whatever the environment holds and
    whatever the lines of the file are: where a line is unpacked into a
    key and a value, the test before it has seen an [=] in the line. The
    base URL of the result is the fixed one, and its model is the value
    of the last model entry of the file, else that of the environment,
    else the built-in name. *)
Theorem get_config_never_raises
    (environ : gmap string string) (file : option (list string)) :
  exists c,
    get_config environ file = Ok c
    /\ cfg_base_url c = url_v1
    /\ cfg_model c
       = default (default "zai-glm-4.7" (environ !! "CEREBRAS_MODEL"))
                 (file_model file).
Proof.
  destruct (get_config_spec environ file) as (c & H & Hm & Hu & _).
  exists c. repeat split; assumption.
Qed.

(** X2: a line of the config file that is a comment, that has no [=], or
    whose key is neither [cerebras_api_key] nor [cerebras_model] changes
    nothing: the configuration read, and so the client constructed, are
    those of the file without the line. *)
Theorem ignored_line_changes_nothing
    (environ : gmap string string) (pre post : list string) (raw : string) :
  PyStr.startswith (PyStr.strip raw) "#" = true
  \/ PyStr.contains "=" (PyStr.strip raw) = false
  \/ ignored_line raw = true ->
  get_config environ (Some (pre ++ raw :: post))
  = get_config environ (Some (pre ++ post))
  /\ forall api_key model,
       CerebrasClient.__init__ api_key model environ
         (Some (pre ++ raw :: post))
       = CerebrasClient.__init__ api_key model environ (Some (pre ++ post)).
Proof.
  intros H.
  assert (ignored_line raw = true) as I.
  { destruct H as [H|[H|H]]; [| |exact H];
      unfold ignored_line, has_entry; rewrite entry_none by tauto;
      reflexivity. }
  assert (get_config environ (Some (pre ++ raw :: post))
          = get_config environ (Some (pre ++ post))) as G.
  { unfold get_config. rewrite !config_lines_app.
    destruct (config_lines _ pre) as [c|e]; [|reflexivity].
    cbn [mbind result_bind config_lines].
    rewrite (config_line_ignored c raw I). reflexivity. }
  split; [exact G|].
  intros api_key model. unfold CerebrasClient.__init__. rewrite G.
  reflexivity.
Qed.

Lemma ignored_line_changes_nothing_witness :
  get_config ∅ (Some (["# cerebras_api_key = old"] ++ "cerebras_api_key" :: [abc_line]))
  = get_config ∅ (Some (["# cerebras_api_key = old"] ++ [abc_line]))
  /\ get_config ∅ (Some ([] ++ "# cerebras_api_key = old" :: [abc_line]))
     = get_config ∅ (Some ([] ++ [abc_line]))
  /\ get_config ∅ (Some ([] ++ "timeout = 30" :: [abc_line]))
     = get_config ∅ (Some ([] ++ [abc_line])).
Proof.
  split; [|split].
  - apply (ignored_line_changes_nothing ∅ ["# cerebras_api_key = old"]
             [abc_line] "cerebras_api_key").
    right; left. vm_compute; reflexivity.
  - apply (ignored_line_changes_nothing ∅ [] [abc_line]
             "# cerebras_api_key = old").
    left. vm_compute; reflexivity.
  - apply (ignored_line_changes_nothing ∅ [] [abc_line] "timeout = 30").
    right; right. vm_compute; reflexivity.
Defined.

(** X3: an explicit key that is not empty is the key of the client:
    construction succeeds with it whatever the environment and the config
    file hold. *)
Theorem explicit_key_wins
    (k : string) (model : option string) (environ : gmap string string)
    (file : option (list string)) :
  k <> EmptyString ->
  CerebrasClient.__init__ (Some k) model environ file
  = Ok (mkClient k (layered_model model environ file) url_v1).
Proof.
  intros H. rewrite init_layered. unfold layered_api_key, or_opt.
  destruct k as [|c t]; [contradiction|reflexivity].
Qed.

Lemma explicit_key_wins_witness :
  CerebrasClient.__init__ (Some "explicit") None
    (<["CEREBRAS_API_KEY" := "k"]> ∅) (Some [abc_line])
  = Ok (mkClient "explicit" "zai-glm-4.7" url_v1).
Proof.
  etransitivity.
  - apply (explicit_key_wins "explicit" None
             (<["CEREBRAS_API_KEY" := "k"]> ∅) (Some [abc_line])).
    discriminate.
  - vm_compute; reflexivity.
Defined.

(** X4: a client that exists has a key that is not empty and the fixed
    base URL: no request is sent with an empty bearer token. *)
Theorem client_key_not_empty
    (explicit_key explicit_model : option string)
    (environ : gmap string string) (file : option (list string))
    (c : Client) :
  CerebrasClient.__init__ explicit_key explicit_model environ file = Ok c ->
  api_key c <> EmptyString /\ base_url c = url_v1.
Proof.
  rewrite init_layered.
  destruct (layered_api_key explicit_key environ file) as [k|] eqn:K;
    [|discriminate].
  intros [= <-]. split; [|reflexivity].
  exact (layered_api_key_nonempty _ _ _ _ K).
Qed.

Lemma client_key_not_empty_witness :
  api_key (mkClient "abc" "zai-glm-4.7" url_v1) <> EmptyString
  /\ base_url (mkClient "abc" "zai-glm-4.7" url_v1) = url_v1.
Proof.
  apply (client_key_not_empty None None ∅ (Some [abc_line])).
  vm_compute; reflexivity.
Defined.

Lemma model_environment_then_default_witness :
  CerebrasClient.__init__ None None model_environ (Some ["# settings"])
  = Ok (mkClient "k" "llama3.1-8b" url_v1)
  /\ CerebrasClient.__init__ None None (<["CEREBRAS_API_KEY" := "k"]> ∅) None
     = Ok (mkClient "k" "zai-glm-4.7" url_v1).
Proof.
  split.
  - etransitivity.
    + apply (model_environment_then_default None None model_environ
               (Some ["# settings"]) "k"); vm_compute; reflexivity.
    + vm_compute; reflexivity.
  - etransitivity.
    + apply (model_environment_then_default None None
               (<["CEREBRAS_API_KEY" := "k"]> ∅) None "k");
        vm_compute; reflexivity.
    + vm_compute; reflexivity.
Defined.

(** ** More on the blocking request *)

Lemma prefix_empty (s : string) : String.prefix EmptyString s = true.
Proof. destruct s; reflexivity. Qed.

(** [chat] sends its one request and answers by the response alone. *)
Lemma chat_run server self messages max_tokens temperature w :
  chat server self messages max_tokens temperature w
  = (chat_outcome (server (chat_request self messages max_tokens temperature)),
     sent w (chat_request self messages max_tokens temperature)).
Proof.
  unfold chat, chat_outcome, mbind at 1 2, M_bind, post, raise, lift.
  fold (chat_request self messages max_tokens temperature).
  destruct (negb _); [reflexivity|].
  destruct (json _); reflexivity.
Qed.

(** X6: on a response with status 200 whose body is a JSON object with a
    list under [choices], an object as first item of the list, an object
    under [message] of it and a value under [content] of that, [chat]
    answers that value, having sent one request. The other choices and
    the other fields of the body are not looked at. *)
Theorem chat_answers_first_choice
    (server : Request -> Response) (self : Client)
    (messages : list Message) (max_tokens : Z) (temperature : float)
    (w : World) (d choice message : list (string * JSON))
    (more : list JSON) (v : JSON) :
  let request := chat_request self messages max_tokens temperature in
  status (server request) = 200%Z ->
  json (server request) = Ok (JDict d) ->
  dict_get d "choices" = Some (JList (JDict choice :: more)) ->
  dict_get choice "message" = Some (JDict message) ->
  dict_get message "content" = Some v ->
  chat server self messages max_tokens temperature w
  = (Ok v, sent w request).
Proof.
  intros request St J C Ms Ct. rewrite chat_run. fold request.
  unfold chat_outcome. rewrite St, J. cbn [Z.eqb negb Pos.eqb].
  cbn [mbind result_bind Py.getitem]. rewrite C.
  cbn [mbind result_bind Py.getitem Py.getitem_0]. rewrite Ms.
  cbn [mbind result_bind Py.getitem]. rewrite Ct. reflexivity.
Qed.

Lemma chat_answers_first_choice_witness :
  chat (constant_server ok_response) demo_client [mkMessage "user" "Hi"]
       4096 0.7%float world0
  = (Ok (JStr "Hello"),
     sent world0 (chat_request demo_client [mkMessage "user" "Hi"]
                               4096 0.7%float)).
Proof.
  apply (chat_answers_first_choice (constant_server ok_response) demo_client
           [mkMessage "user" "Hi"] 4096 0.7%float world0
           [("choices",
             JList [JDict [("message", JDict [("content", JStr "Hello")])]])]
           [("message", JDict [("content", JStr "Hello")])]
           [("content", JStr "Hello")] [] (JStr "Hello"));
    reflexivity.
Defined.

(** X7: on a response with status 200, [chat] raises, after its one
    request and with no result, when the body does not have the expected
    shape: the exception of [resp.json()] when reading the body raises,
    [KeyError] for an object with no [choices], [IndexError] for an empty
    list of choices, [KeyError] for a first choice with no [message] and
    for a message with no [content]. *)
Theorem chat_unexpected_body_raises
    (server : Request -> Response) (self : Client)
    (messages : list Message) (max_tokens : Z) (temperature : float)
    (w : World) :
  let request := chat_request self messages max_tokens temperature in
  status (server request) = 200%Z ->
  (forall e, json (server request) = Raise e ->
     chat server self messages max_tokens temperature w
     = (Raise e, sent w request))
  /\ (forall d, json (server request) = Ok (JDict d) ->
        dict_get d "choices" = None ->
        chat server self messages max_tokens temperature w
        = (Raise (KeyError "choices"), sent w request))
  /\ (forall d, json (server request) = Ok (JDict d) ->
        dict_get d "choices" = Some (JList []) ->
        chat server self messages max_tokens temperature w
        = (Raise IndexError, sent w request))
  /\ (forall d choice more, json (server request) = Ok (JDict d) ->
        dict_get d "choices" = Some (JList (JDict choice :: more)) ->
        dict_get choice "message" = None ->
        chat server self messages max_tokens temperature w
        = (Raise (KeyError "message"), sent w request))
  /\ (forall d choice more message,
        json (server request) = Ok (JDict d) ->
        dict_get d "choices" = Some (JList (JDict choice :: more)) ->
        dict_get choice "message" = Some (JDict message) ->
        dict_get message "content" = None ->
        chat server self messages max_tokens temperature w
        = (Raise (KeyError "content"), sent w request)).
Proof.
  intros request St.
  assert (forall r, chat_outcome (server request) = r ->
            chat server self messages max_tokens temperature w
            = (r, sent w request)) as K.
  { intros r <-. apply chat_run. }
  unfold chat_outcome in K. rewrite St in K.
  cbn [Z.eqb negb Pos.eqb] in K.
  repeat split.
  - intros e J. apply K. rewrite J. reflexivity.
  - intros d J C. apply K. rewrite J.
    cbn [mbind result_bind Py.getitem]. rewrite C. reflexivity.
  - intros d J C. apply K. rewrite J.
    cbn [mbind result_bind Py.getitem]. rewrite C. reflexivity.
  - intros d choice more J C Ms. apply K. rewrite J.
    cbn [mbind result_bind Py.getitem]. rewrite C.
    cbn [mbind result_bind Py.getitem Py.getitem_0]. rewrite Ms.
    reflexivity.
  - intros d choice more message J C Ms Ct. apply K. rewrite J.
    cbn [mbind result_bind Py.getitem]. rewrite C.
    cbn [mbind result_bind Py.getitem Py.getitem_0]. rewrite Ms.
    cbn [mbind result_bind Py.getitem]. rewrite Ct. reflexivity.
Qed.

Lemma chat_unexpected_body_raises_witness :
  fst (chat (constant_server
               (json_response (JDict [("error", JStr "overloaded")])))
            demo_client [mkMessage "user" "Hi"] 4096 0.7%float world0)
  = Raise (KeyError "choices")
  /\ fst (chat (constant_server
                  (json_response (JDict [("choices", JList [])])))
               demo_client [mkMessage "user" "Hi"] 4096 0.7%float world0)
     = Raise IndexError.
Proof.
  split.
  - rewrite (proj1 (proj2 (chat_unexpected_body_raises
                             (constant_server
                                (json_response
                                   (JDict [("error", JStr "overloaded")])))
                             demo_client [mkMessage "user" "Hi"] 4096
                             0.7%float world0 eq_refl))
                   [("error", JStr "overloaded")] eq_refl eq_refl).
    reflexivity.
  - rewrite (proj1 (proj2 (proj2 (chat_unexpected_body_raises
                             (constant_server
                                (json_response
                                   (JDict [("choices", JList [])])))
                             demo_client [mkMessage "user" "Hi"] 4096
                             0.7%float world0 eq_refl)))
                   [("choices", JList [])] eq_refl eq_refl).
    reflexivity.
Defined.

(** ** More on streaming *)

Section StreamMore.

Variable decode : list Byte.byte -> option string.
Variable json_loads : string -> option JSON.

Lemma stream_line_fragment raw v :
  carries decode json_loads raw v ->
  stream_line decode json_loads raw = Ok (Some v).
Proof.
  intros (s & payload & data & D & S & N & J & F).
  rewrite (stream_line_data decode json_loads raw s payload D S), J.
  apply String.eqb_neq in N. rewrite N.
  destruct data as [| | | |?|d]; try discriminate F.
  cbn [fragment_of] in F. cbn [Py.getitem].
  destruct (dict_get d "choices") as [[| | | |[|[| | | | |choice] ?]|]|];
    try discriminate F.
  cbn [mbind result_bind Py.getitem_0 Py.get].
  destruct (dict_get choice "delta") as [[| | | | |delta]|];
    try discriminate F.
  cbn [default from_option id mbind result_bind Py.contains Py.getitem].
  rewrite F. reflexivity.
Qed.

Lemma stream_line_other raw s :
  decode raw = Some s ->
  PyStr.startswith (PyStr.strip s) "data: " = false ->
  stream_line decode json_loads raw = Ok None.
Proof.
  intros D S. unfold stream_line. rewrite D. cbn zeta. rewrite S.
  reflexivity.
Qed.

Lemma run_eta (r : Run) : mkRun (yielded r) (ending r) = r.
Proof. destruct r; reflexivity. Qed.

(** The run over two runs of lines: the second is read when the first
    ends without an exception, and its fragments come after. *)
Lemma stream_lines_app a b :
  stream_lines decode json_loads (a ++ b)
  = match ending (stream_lines decode json_loads a) with
    | Ok _ =>
        mkRun (yielded (stream_lines decode json_loads a)
               ++ yielded (stream_lines decode json_loads b))
              (ending (stream_lines decode json_loads b))
    | Raise e => stream_lines decode json_loads a
    end.
Proof.
  induction a as [|raw rest IH]; cbn [app stream_lines].
  - cbn [yielded ending app]. symmetry. apply run_eta.
  - destruct (stream_line decode json_loads raw) as [[v|]|e];
      [|exact IH|reflexivity].
    rewrite IH.
    destruct (stream_lines decode json_loads rest) as [ys [u|e']];
      reflexivity.
Qed.

(** A line that raises ends the run: the fragments before it stay, the
    lines after it are not read. *)
Lemma stream_lines_raise pre raw post vs e :
  stream_lines decode json_loads pre = mkRun vs (Ok tt) ->
  stream_line decode json_loads raw = Raise e ->
  stream_lines decode json_loads (pre ++ raw :: post) = mkRun vs (Raise e).
Proof.
  intros P L. rewrite stream_lines_app, P. cbn [ending yielded stream_lines].
  rewrite L. cbn [yielded ending]. rewrite app_nil_r. reflexivity.
Qed.

Lemma body_yields_run lines vs :
  body_yields decode json_loads lines vs ->
  stream_lines decode json_loads lines = mkRun vs (Ok tt).
Proof.
  induction 1 as [|raw v rest vs C _ IH|raw s rest vs D S _ IH
                  |raw s rest vs D S _ IH]; cbn [stream_lines].
  - reflexivity.
  - rewrite (stream_line_fragment raw v C), IH. reflexivity.
  - rewrite (stream_line_other raw s D S). exact IH.
  - rewrite (stream_line_done decode json_loads raw s D S). exact IH.
Qed.

End StreamMore.

(** X8: when the status of the response is not 200, [stream] yields no
    fragment and raises the same error as [chat], with the status code
    and the body text in its message, after its one request; the lines
    of the body are not read. *)
Theorem stream_non_200_raises
    (server : Request -> Response)
    (decode : list Byte.byte -> option string)
    (json_loads : string -> option JSON)
    (self : Client) (prompt : string) (system : option string)
    (max_tokens : Z) (temperature : float) (w : World) :
  let request := stream_request self prompt system max_tokens temperature in
  let resp := server request in
  status resp <> 200%Z ->
  stream server decode json_loads self prompt system max_tokens
         temperature w
  = (mkRun [] (Raise (Exception
                        ("Cerebras API error " +:+ PyStr.of_int (status resp)
                         +:+ ": " +:+ text resp))),
     sent w request).
Proof.
  intros request resp H. rewrite stream_run. fold request. fold resp.
  apply Z.eqb_neq in H. rewrite H. reflexivity.
Qed.

Lemma stream_non_200_raises_witness :
  fst (stream (constant_server unauthorized) Reference.decode
              Reference.json_loads demo_client "Hi" None 4096 0.7%float
              world0)
  = mkRun [] (Raise (Exception
                       ("Cerebras API error 401: "
                        +:+ q "{'message':'Wrong API Key'}"))).
Proof.
  rewrite (stream_non_200_raises (constant_server unauthorized)
             Reference.decode Reference.json_loads demo_client "Hi" None
             4096 0.7%float world0).
  - reflexivity.
  - vm_compute. discriminate.
Defined.

(** X9: a line of the body that, blanks stripped, does not start with
    [data: ] (six characters, the space among them) yields nothing and
    raises nothing, whatever it holds: a blank line, a comment, a field
    of another name, and also [data:] with no space after the colon. The
    run is that of the body without the line. *)
Theorem stream_ignores_other_lines
    (server : Request -> Response)
    (decode : list Byte.byte -> option string)
    (json_loads : string -> option JSON)
    (self : Client) (prompt : string) (system : option string)
    (max_tokens : Z) (temperature : float) (w : World)
    (pre post : list (list Byte.byte)) (raw : list Byte.byte) (s : string) :
  let request := stream_request self prompt system max_tokens temperature in
  status (server request) = 200%Z ->
  body_lines (server request) = pre ++ raw :: post ->
  decode raw = Some s ->
  PyStr.startswith (PyStr.strip s) "data: " = false ->
  fst (stream server decode json_loads self prompt system max_tokens
              temperature w)
  = stream_lines decode json_loads (pre ++ post).
Proof.
  intros request St B D S.
  rewrite stream_run. fold request. rewrite St, B. cbn [fst Z.eqb negb].
  apply stream_lines_skip, (stream_line_other decode json_loads raw s D S).
Qed.

Lemma stream_ignores_other_lines_witness :
  reference_run ["data: " +:+ payload_Hel; "data:" +:+ payload_lo]
  = mkRun [JStr "Hel"] (Ok tt)
  /\ reference_run ["data: " +:+ payload_Hel; EmptyString;
                    "data: " +:+ payload_lo]
     = mkRun [JStr "Hel"; JStr "lo"] (Ok tt).
Proof.
  split.
  - etransitivity.
    + apply (stream_ignores_other_lines
               (constant_server
                  (streaming_response
                     ["data: " +:+ payload_Hel; "data:" +:+ payload_lo]))
               Reference.decode Reference.json_loads demo_client "Hi" None
               4096 0.7%float world0
               [body_line ("data: " +:+ payload_Hel)] []
               (body_line ("data:" +:+ payload_lo))
               ("data:" +:+ payload_lo +:+ newline));
        vm_compute; reflexivity.
    + vm_compute; reflexivity.
  - etransitivity.
    + apply (stream_ignores_other_lines
               (constant_server
                  (streaming_response
                     ["data: " +:+ payload_Hel; EmptyString;
                      "data: " +:+ payload_lo]))
               Reference.decode Reference.json_loads demo_client "Hi" None
               4096 0.7%float world0
               [body_line ("data: " +:+ payload_Hel)]
               [body_line ("data: " +:+ payload_lo)]
               (body_line EmptyString) newline);
        vm_compute; reflexivity.
    + vm_compute; reflexivity.
Defined.

(** X10: for a response with status 200 whose body is made of frames that
    carry a fragment, of lines that do not start with [data: ] and of
    [data: [DONE]] lines, in any order, [stream] yields the fragments of
    the frames, each once and in the order of the lines, and then ends
    without an exception. A fragment is the value under [content],
    string or not; of a frame only the [delta] of the first choice is
    read. *)
Theorem stream_yields_fragments_in_order
    (server : Request -> Response)
    (decode : list Byte.byte -> option string)
    (json_loads : string -> option JSON)
    (self : Client) (prompt : string) (system : option string)
    (max_tokens : Z) (temperature : float) (w : World) (vs : list JSON) :
  let request := stream_request self prompt system max_tokens temperature in
  status (server request) = 200%Z ->
  body_yields decode json_loads (body_lines (server request)) vs ->
  stream server decode json_loads self prompt system max_tokens
         temperature w
  = (mkRun vs (Ok tt), sent w request).
Proof.
  intros request St B.
  rewrite stream_run. fold request. rewrite St. cbn [Z.eqb negb Pos.eqb].
  rewrite (body_yields_run decode json_loads _ vs B). reflexivity.
Qed.

Lemma stream_yields_fragments_in_order_witness :
  reference_run ["data: " +:+ payload_Hel; EmptyString;
                 q "data: {'choices':[{'delta':{'content':null},'index':0},{'delta':{'content':'x'}}]}";
                 ": ping"; "data: [DONE]"; EmptyString]
  = mkRun [JStr "Hel"; JNull] (Ok tt).
Proof.
  unfold reference_run.
  rewrite (stream_yields_fragments_in_order
             (constant_server
                (streaming_response
                   ["data: " +:+ payload_Hel; EmptyString;
                    q "data: {'choices':[{'delta':{'content':null},'index':0},{'delta':{'content':'x'}}]}";
                    ": ping"; "data: [DONE]"; EmptyString]))
             Reference.decode Reference.json_loads demo_client "Hi" None
             4096 0.7%float world0 [JStr "Hel"; JNull]).
  - reflexivity.
  - reflexivity.
  - cbn [constant_server streaming_response body_lines map].
    eapply body_frame.
    { eexists _, payload_Hel, _.
      repeat split; try discriminate; vm_compute; reflexivity. }
    eapply body_other; [vm_compute; reflexivity..|].
    eapply body_frame.
    { eexists _,
        (q "{'choices':[{'delta':{'content':null},'index':0},{'delta':{'content':'x'}}]}"),
        _.
      repeat split; try discriminate; vm_compute; reflexivity. }
    eapply body_other; [vm_compute; reflexivity..|].
    eapply body_done; [vm_compute; reflexivity..|].
    eapply body_other; [vm_compute; reflexivity..|].
    apply body_end.
Defined.

(** X11: a line of the body that [decode] refuses ends the stream with
    [UnicodeDecodeError]: the fragments of the lines before it have been
    yielded, and the lines after it are not read. *)
Theorem stream_stops_at_undecodable_line
    (server : Request -> Response)
    (decode : list Byte.byte -> option string)
    (json_loads : string -> option JSON)
    (self : Client) (prompt : string) (system : option string)
    (max_tokens : Z) (temperature : float) (w : World)
    (pre post : list (list Byte.byte)) (raw : list Byte.byte)
    (vs : list JSON) :
  let request := stream_request self prompt system max_tokens temperature in
  status (server request) = 200%Z ->
  body_lines (server request) = pre ++ raw :: post ->
  stream_lines decode json_loads pre = mkRun vs (Ok tt) ->
  decode raw = None ->
  fst (stream server decode json_loads self prompt system max_tokens
              temperature w)
  = mkRun vs (Raise UnicodeDecodeError).
Proof.
  intros request St B P D.
  rewrite stream_run. fold request. rewrite St, B. cbn [fst Z.eqb negb].
  apply (stream_lines_raise decode json_loads pre raw post vs _ P).
  unfold stream_line. rewrite D. reflexivity.
Qed.

(** X12: a frame that is a JSON object with no [choices], such as an
    error object sent in the stream, ends the stream with [KeyError]:
    the fragments of the lines before it have been yielded, and the
    lines after it are not read. *)
Theorem stream_stops_at_frame_without_choices
    (server : Request -> Response)
    (decode : list Byte.byte -> option string)
    (json_loads : string -> option JSON)
    (self : Client) (prompt : string) (system : option string)
    (max_tokens : Z) (temperature : float) (w : World)
    (pre post : list (list Byte.byte)) (raw : list Byte.byte)
    (vs : list JSON) (s payload : string) (d : list (string * JSON)) :
  let request := stream_request self prompt system max_tokens temperature in
  status (server request) = 200%Z ->
  body_lines (server request) = pre ++ raw :: post ->
  stream_lines decode json_loads pre = mkRun vs (Ok tt) ->
  decode raw = Some s ->
  PyStr.strip s = "data: " +:+ payload ->
  payload <> "[DONE]" ->
  json_loads payload = Some (JDict d) ->
  dict_get d "choices" = None ->
  fst (stream server decode json_loads self prompt system max_tokens
              temperature w)
  = mkRun vs (Raise (KeyError "choices")).
Proof.
  intros request St B P D S N J C.
  rewrite stream_run. fold request. rewrite St, B. cbn [fst Z.eqb negb].
  apply (stream_lines_raise decode json_loads pre raw post vs _ P).
  rewrite (stream_line_data decode json_loads raw s payload D S), J.
  apply String.eqb_neq in N. rewrite N.
  cbn [mbind result_bind Py.getitem]. rewrite C. reflexivity.
Qed.

Lemma stream_stops_at_frame_without_choices_witness :
  reference_run ["data: " +:+ payload_Hel;
                 q "data: {'error':{'message':'overloaded'}}";
                 "data: " +:+ payload_lo]
  = mkRun [JStr "Hel"] (Raise (KeyError "choices")).
Proof.
  apply (stream_stops_at_frame_without_choices
           (constant_server
              (streaming_response
                 ["data: " +:+ payload_Hel;
                  q "data: {'error':{'message':'overloaded'}}";
                  "data: " +:+ payload_lo]))
           Reference.decode Reference.json_loads demo_client "Hi" None
           4096 0.7%float world0
           [body_line ("data: " +:+ payload_Hel)]
           [body_line ("data: " +:+ payload_lo)]
           (body_line (q "data: {'error':{'message':'overloaded'}}"))
           [JStr "Hel"]
           (q "data: {'error':{'message':'overloaded'}}" +:+ newline)
           (q "{'error':{'message':'overloaded'}}")
           [("error", JDict [("message", JStr "overloaded")])]);
    try (vm_compute; reflexivity); discriminate.
Defined.

(** X13: [stream] and [complete] send the same request but for the
    [stream] key: the same URL, headers, model, messages, [max_tokens]
    and temperature, with [stream] true for the one and no [stream] key
    for the other. Each sends exactly one request, whatever the
    response. *)
Theorem stream_request_is_complete_request
    (server server' : Request -> Response)
    (decode : list Byte.byte -> option string)
    (json_loads : string -> option JSON)
    (self : Client) (prompt : string) (system : option string)
    (max_tokens : Z) (temperature : float) (w : World) :
  let r := chat_request self (conversation prompt system) max_tokens
                        temperature in
  requests (snd (complete server self prompt system max_tokens
                          temperature w))
  = requests w ++ [r]
  /\ requests (snd (stream server' decode json_loads self prompt system
                           max_tokens temperature w))
     = requests w ++ [with_stream r]
  /\ body_stream (req_json r) = None.
Proof.
  intros r. split; [|split; [|reflexivity]].
  - assert (complete server self prompt system max_tokens temperature
            = chat server self (conversation prompt system)
                   max_tokens temperature) as ->.
    { unfold complete, conversation, system_message.
      destruct system as [[|c t]|]; reflexivity. }
    rewrite chat_run. reflexivity.
  - rewrite stream_run. reflexivity.
Qed.

Lemma stream_stops_at_undecodable_line_witness :
  fst (stream (constant_server broken_response) Reference.decode
              Reference.json_loads demo_client "Hi" None 4096 0.7%float
              world0)
  = mkRun [JStr "Hel"] (Raise UnicodeDecodeError).
Proof.
  apply (stream_stops_at_undecodable_line
           (constant_server broken_response) Reference.decode
           Reference.json_loads demo_client "Hi" None 4096 0.7%float world0
           [body_line ("data: " +:+ payload_Hel)]
           [body_line ("data: " +:+ payload_lo)] [Byte.xff] [JStr "Hel"]);
    vm_compute; reflexivity.
Defined.

(** ** The command line *)

Section MainFacts.

Variable server : Request -> Response.
Variable decode : list Byte.byte -> option string.
Variable json_loads : string -> option JSON.

Lemma complete_run self prompt system max_tokens temperature w :
  complete server self prompt system max_tokens temperature w
  = (chat_outcome
       (server (chat_request self (conversation prompt system)
                             max_tokens temperature)),
     sent w (chat_request self (conversation prompt system)
                          max_tokens temperature)).
Proof.
  assert (complete server self prompt system max_tokens temperature
          = chat server self (conversation prompt system)
                 max_tokens temperature) as ->.
  { unfold complete, conversation, system_message.
    destruct system as [[|c t]|]; reflexivity. }
  apply chat_run.
Qed.

(** Printing the result of a request: the result and a line feed on the
    output when there is a result, the exception of the request else. *)
Lemma print_result_run (m : M JSON) (o : result JSON) (w w' : World) :
  m w = (o, w') ->
  (result ← m; print result newline) w
  = match o with
    | Ok v =>
        (Ok tt,
         mkWorld (requests w') (stdout w' ++ [PrintObj v newline])
                 (stderr w'))
    | Raise e => (Raise e, w')
    end.
Proof.
  intros H. unfold mbind, M_bind. rewrite H. destruct o; reflexivity.
Qed.

Lemma print_all_run vs w :
  print_all vs w
  = (Ok tt,
     mkWorld (requests w) (stdout w ++ printed_fragments vs) (stderr w)).
Proof.
  revert w. induction vs as [|v vs IH]; intros w.
  - cbn [print_all printed_fragments map]. rewrite app_nil_r.
    destruct w; reflexivity.
  - cbn [print_all]. unfold mbind, M_bind, print at 1. rewrite IH.
    cbn [requests stdout stderr printed_fragments map].
    rewrite <- app_assoc. reflexivity.
Qed.

Lemma preset_get_valid items name :
  existsb (fun item : string * string => String.eqb (fst item) name) items
  = true ->
  exists text, preset_get items name = Ok text.
Proof.
  induction items as [|[k v] rest IH]; [discriminate|].
  cbn [existsb preset_get fst].
  destruct (String.eqb k name); [eauto|exact IH].
Qed.

End MainFacts.

(** With a client constructed, [main] runs the command with it. *)
Lemma main_run server decode json_loads environ file model command client :
  CerebrasClient.__init__ None model environ file = Ok client ->
  main server decode json_loads environ file model command
  = run_command server decode json_loads client command.
Proof. intros H. unfold main. rewrite H. reflexivity. Qed.

(** The command without the streaming flag, as a request whose result is
    printed. *)
Lemma run_command_blocking server decode json_loads client command :
  valid_command command = true ->
  streaming command = false ->
  exists messages,
    run_command server decode json_loads client command
    = (result ← chat server client messages 4096
                     (command_temperature command);
       print result newline).
Proof.
  intros V S. destruct command as [p s [|]|t c l|m c s|n c tl];
    try discriminate S.
  - exists (conversation p s). cbn [run_command command_temperature].
    f_equal. unfold complete, conversation, system_message.
    destruct s as [[|? ?]|]; reflexivity.
  - eexists. cbn [run_command command_temperature]. unfold code, complete.
    cbn [String.append app]. reflexivity.
  - exists (conversation (chat_prompt m c) s).
    cbn [run_command command_temperature].
    f_equal. unfold complete, conversation, system_message, chat_prompt.
    destruct c as [[|? ?]|]; destruct s as [[|? ?]|]; reflexivity.
  - cbn [valid_command] in V.
    destruct (preset_get_valid PRESETS n V) as [text T].
    eexists. cbn [run_command command_temperature]. rewrite T.
    unfold complete. cbn [app]. reflexivity.
Qed.

(** The command with the streaming flag: the fragments are printed as
    they come, and a line feed after the last when the stream ends
    without an exception. *)
Lemma run_command_streaming server decode json_loads client p s w :
  run_command server decode json_loads client (CmdComplete p s true) w
  = let run :=
      fst (stream server decode json_loads client p s 4096 0.7%float w) in
    (ending run,
     mkWorld (requests w ++ [stream_request client p s 4096 0.7%float])
             (stdout w ++ printed_fragments (yielded run)
              ++ match ending run with
                 | Ok _ => [PrintNewline]
                 | Raise _ => []
                 end)
             (stderr w)).
Proof.
  cbn [run_command]. unfold default_max_tokens, default_temperature.
  rewrite stream_run. cbv beta iota zeta. cbn [fst].
  unfold mbind, M_bind, lift, print_newline. rewrite print_all_run.
  match goal with |- context [yielded ?r] =>
    destruct r as [ys [[]|e]] end;
    cbn [yielded ending requests stdout stderr sent];
    rewrite ?app_nil_r, <- ?app_assoc; reflexivity.
Qed.

(** X14: with a key resolved, [main] sends exactly one request, whatever
    the command and whatever the response (nothing is sent again): to
    [/chat/completions] under the base URL, with the key as bearer token,
    with the resolved model, [max_tokens] 4096, temperature 0.3 for
    [code] and [preset] and 0.7 for [complete] and [chat], and the
    [stream] key, true, for [complete --stream] alone. Nothing is written
    on the error stream. *)
Theorem main_sends_one_request
    (server : Request -> Response)
    (decode : list Byte.byte -> option string)
    (json_loads : string -> option JSON)
    (environ : gmap string string) (file : option (list string))
    (model_arg : option string) (command : Command) (client : Client)
    (w : World) :
  CerebrasClient.__init__ None model_arg environ file = Ok client ->
  valid_command command = true ->
  exists messages,
    requests (snd (main server decode json_loads environ file model_arg
                        command w))
    = requests w
      ++ [mkRequest (url_v1 +:+ "/chat/completions")
            [("Authorization", "Bearer " +:+ api_key client);
             ("Content-Type", "application/json")]
            (mkBody (model client) messages 4096
                    (command_temperature command)
                    (if streaming command then Some true else None))]
    /\ stderr (snd (main server decode json_loads environ file model_arg
                         command w))
       = stderr w.
Proof.
  intros H V.
  assert (base_url client = url_v1) as U.
  { rewrite init_layered in H.
    destruct (layered_api_key None environ file); [|discriminate].
    injection H as <-. reflexivity. }
  rewrite (main_run _ _ _ _ _ _ _ _ H).
  destruct (streaming command) eqn:S.
  - destruct command as [p s [|]|t c l|m c s|n c tl]; try discriminate S.
    exists (conversation p s).
    rewrite run_command_streaming. cbv zeta. cbn [snd requests stderr].
    unfold stream_request, headers. rewrite U. split; reflexivity.
  - destruct (run_command_blocking server decode json_loads client command
                V S) as [messages ->].
    exists messages.
    rewrite (print_result_run _ _ _ _ (chat_run _ _ _ _ _ _)).
    unfold chat_request, headers. rewrite U.
    match goal with |- context [chat_outcome ?r] =>
      destruct (chat_outcome r) end; split; reflexivity.
Qed.

Lemma main_sends_one_request_witness :
  exists messages,
    requests (snd (main (constant_server ok_response) Reference.decode
                        Reference.json_loads key_environ None None
                        (CmdCode "reverse a list" None "Go") world0))
    = requests world0
      ++ [mkRequest (url_v1 +:+ "/chat/completions")
            [("Authorization", "Bearer " +:+ api_key demo_client);
             ("Content-Type", "application/json")]
            (mkBody (model demo_client) messages 4096
                    (command_temperature (CmdCode "reverse a list" None "Go"))
                    (if streaming (CmdCode "reverse a list" None "Go")
                     then Some true else None))]
    /\ stderr (snd (main (constant_server ok_response) Reference.decode
                         Reference.json_loads key_environ None None
                         (CmdCode "reverse a list" None "Go") world0))
       = stderr world0.
Proof.
  apply (main_sends_one_request (constant_server ok_response)
           Reference.decode Reference.json_loads key_environ None None
           (CmdCode "reverse a list" None "Go") demo_client world0);
    vm_compute; reflexivity.
Defined.

(** X15: with a key resolved, a command without the streaming flag prints
    the result of its request and a line feed after it, and nothing
    else, and ends normally; when the request raises (the API error of a
    status that is not 200, or the error of a body of unexpected shape),
    the exception leaves [main] as it is, not turned into an exit status,
    and nothing is printed on either stream. *)
Theorem main_prints_result_or_raises
    (server : Request -> Response)
    (decode : list Byte.byte -> option string)
    (json_loads : string -> option JSON)
    (environ : gmap string string) (file : option (list string))
    (model_arg : option string) (command : Command) (client : Client)
    (w : World) :
  CerebrasClient.__init__ None model_arg environ file = Ok client ->
  valid_command command = true ->
  streaming command = false ->
  exists r,
    main server decode json_loads environ file model_arg command w
    = match chat_outcome (server r) with
      | Ok v =>
          (Ok tt,
           mkWorld (requests w ++ [r]) (stdout w ++ [PrintObj v newline])
                   (stderr w))
      | Raise e => (Raise e, mkWorld (requests w ++ [r]) (stdout w) (stderr w))
      end.
Proof.
  intros H V S. rewrite (main_run _ _ _ _ _ _ _ _ H).
  destruct (run_command_blocking server decode json_loads client command
              V S) as [messages ->].
  exists (chat_request client messages 4096 (command_temperature command)).
  rewrite (print_result_run _ _ _ _ (chat_run _ _ _ _ _ _)).
  reflexivity.
Qed.

Lemma main_prints_result_or_raises_witness :
  (exists r,
     main (constant_server ok_response) Reference.decode
          Reference.json_loads key_environ None None
          (CmdChat "Hi" None None) world0
     = match chat_outcome (constant_server ok_response r) with
       | Ok v =>
           (Ok tt,
            mkWorld (requests world0 ++ [r])
                    (stdout world0 ++ [PrintObj v newline]) (stderr world0))
       | Raise e =>
           (Raise e,
            mkWorld (requests world0 ++ [r]) (stdout world0) (stderr world0))
       end)
  /\ stdout (snd (main (constant_server ok_response) Reference.decode
                       Reference.json_loads key_environ None None
                       (CmdChat "Hi" None None) world0))
     = [PrintObj (JStr "Hello") newline]
  /\ main (constant_server unauthorized) Reference.decode
          Reference.json_loads key_environ None None
          (CmdChat "Hi" None None) world0
     = (Raise (Exception ("Cerebras API error 401: "
                          +:+ q "{'message':'Wrong API Key'}")),
        sent world0 (chat_request demo_client [mkMessage "user" "Hi"]
                                  4096 0.7%float)).
Proof.
  split; [|split].
  - apply (main_prints_result_or_raises (constant_server ok_response)
             Reference.decode Reference.json_loads key_environ None None
             (CmdChat "Hi" None None) demo_client world0);
      vm_compute; reflexivity.
  - vm_compute. reflexivity.
  - vm_compute. reflexivity.
Defined.

(** X16: with a key resolved, [complete --stream] prints each fragment
    of the stream as it is, with nothing between two fragments, and one
    line feed after the last when the stream ends without an exception.
    When the stream raises, the fragments yielded before the exception
    have been printed, no line feed follows, and the exception leaves
    [main]. *)
Theorem main_stream_prints_fragments
    (server : Request -> Response)
    (decode : list Byte.byte -> option string)
    (json_loads : string -> option JSON)
    (environ : gmap string string) (file : option (list string))
    (model_arg : option string) (prompt : string) (system : option string)
    (client : Client) (w : World) :
  CerebrasClient.__init__ None model_arg environ file = Ok client ->
  let run :=
    fst (stream server decode json_loads client prompt system 4096
                0.7%float w) in
  main server decode json_loads environ file model_arg
       (CmdComplete prompt system true) w
  = (ending run,
     mkWorld (requests w ++ [stream_request client prompt system 4096
                                            0.7%float])
             (stdout w ++ printed_fragments (yielded run)
              ++ match ending run with
                 | Ok _ => [PrintNewline]
                 | Raise _ => []
                 end)
             (stderr w)).
Proof.
  intros H run. rewrite (main_run _ _ _ _ _ _ _ _ H).
  apply run_command_streaming.
Qed.

Lemma main_stream_prints_fragments_witness :
  main (constant_server
          (streaming_response
             ["data: " +:+ payload_Hel; "data: " +:+ payload_lo;
              "data: [DONE]"]))
       Reference.decode Reference.json_loads key_environ None None
       (CmdComplete "Hi" None true) world0
  = (Ok tt,
     mkWorld [stream_request demo_client "Hi" None 4096 0.7%float]
             [PrintObj (JStr "Hel") EmptyString;
              PrintObj (JStr "lo") EmptyString; PrintNewline]
             [])
  /\ main (constant_server broken_response)
          Reference.decode Reference.json_loads key_environ None None
          (CmdComplete "Hi" None true) world0
     = (Raise UnicodeDecodeError,
        mkWorld [stream_request demo_client "Hi" None 4096 0.7%float]
                [PrintObj (JStr "Hel") EmptyString] []).
Proof.
  split.
  - rewrite (main_stream_prints_fragments
               (constant_server
                  (streaming_response
                     ["data: " +:+ payload_Hel; "data: " +:+ payload_lo;
                      "data: [DONE]"]))
               Reference.decode Reference.json_loads key_environ None None
               "Hi" None demo_client world0);
      vm_compute; reflexivity.
  - rewrite (main_stream_prints_fragments
               (constant_server broken_response)
               Reference.decode Reference.json_loads key_environ None None
               "Hi" None demo_client world0);
      vm_compute; reflexivity.
Defined.

(** X17: the [translate] preset asks to translate to the target language
    given, and to TypeScript when none is given or the one given is
    empty; the code follows in a block. The prompt is the only message,
    and the temperature is 0.3. For a preset of another name the target
    language changes nothing. *)
Theorem main_preset_translate
    (server : Request -> Response)
    (decode : list Byte.byte -> option string)
    (json_loads : string -> option JSON)
    (environ : gmap string string) (file : option (list string))
    (model_arg : option string) (context : string)
    (target_lang : option string) (client : Client) (w : World) :
  CerebrasClient.__init__ None model_arg environ file = Ok client ->
  requests (snd (main server decode json_loads environ file model_arg
                      (CmdPreset "translate" context target_lang) w))
  = requests w
    ++ [chat_request client
          [mkMessage "user"
             (preset_prompt_of
                ("Translate this code to "
                 +:+ or_str target_lang "TypeScript" +:+ ":")
                context)]
          4096 0.3%float]
  /\ forall name other_lang,
       name <> "translate" ->
       main server decode json_loads environ file model_arg
            (CmdPreset name context target_lang) w
       = main server decode json_loads environ file model_arg
              (CmdPreset name context other_lang) w.
Proof.
  intros H. rewrite !(main_run _ _ _ _ _ _ _ _ H). split.
  - cbn [run_command]. unfold mbind at 1, M_bind at 1.
    change (lift (preset_get PRESETS "translate") w)
      with (Ok "Translate this code to {target_lang}:" : result string, w).
    cbv beta iota.
    change (PyStr.contains "{target_lang}"
              "Translate this code to {target_lang}:") with true.
    cbv beta iota.
    assert (PyStr.replace "{target_lang}" (or_str target_lang "TypeScript")
              "Translate this code to {target_lang}:"
            = "Translate this code to "
              +:+ or_str target_lang "TypeScript" +:+ ":") as ->.
    { generalize (or_str target_lang "TypeScript"). intros t.
      vm_compute. reflexivity. }
    rewrite (print_result_run _ _ _ _ (complete_run _ _ _ _ _ _ _)).
    unfold preset_prompt_of, default_max_tokens.
    match goal with |- context [chat_outcome ?r] =>
      destruct (chat_outcome r) end; reflexivity.
  - intros name other_lang N.
    rewrite !(main_run _ _ _ _ _ _ _ _ H).
    cbn [run_command]. unfold mbind at 1 3, M_bind at 1 3, lift.
    cbn [PRESETS preset_get].
    repeat match goal with
    | |- context [String.eqb ?k name] =>
        let E := fresh "E" in
        destruct (String.eqb k name) eqn:E;
        [apply String.eqb_eq in E; try congruence;
         cbv beta iota;
         match goal with |- context [PyStr.contains ?a ?b] =>
           let v := eval vm_compute in (PyStr.contains a b) in
           change (PyStr.contains a b) with v
         end;
         cbv beta iota; reflexivity|]
    end.
    reflexivity.
Qed.

Lemma main_preset_translate_witness :
  requests (snd (main (constant_server ok_response) Reference.decode
                      Reference.json_loads key_environ None None
                      (CmdPreset "translate" "x = 1" (Some "Go")) world0))
  = [chat_request demo_client
       [mkMessage "user" (preset_prompt_of "Translate this code to Go:"
                                           "x = 1")]
       4096 0.3%float]
  /\ requests (snd (main (constant_server ok_response) Reference.decode
                         Reference.json_loads key_environ None None
                         (CmdPreset "translate" "x = 1" None) world0))
     = [chat_request demo_client
          [mkMessage "user"
             (preset_prompt_of "Translate this code to TypeScript:" "x = 1")]
          4096 0.3%float].
Proof.
  split.
  - apply (proj1 (main_preset_translate (constant_server ok_response)
                    Reference.decode Reference.json_loads key_environ None
                    None "x = 1" (Some "Go") demo_client world0 eq_refl)).
  - apply (proj1 (main_preset_translate (constant_server ok_response)
                    Reference.decode Reference.json_loads key_environ None
                    None "x = 1" None demo_client world0 eq_refl)).
Defined.

(** X18: the [chat] command sends the message as the user message, after
    the system message when [--system] is given and not empty. A context
    that is given and not empty comes before the message, under the word
    [Context:] and with an empty line between the two, not in a block;
    an empty context is as no context. *)
Theorem main_chat_prompt
    (server : Request -> Response)
    (decode : list Byte.byte -> option string)
    (json_loads : string -> option JSON)
    (environ : gmap string string) (file : option (list string))
    (model_arg : option string) (message : string)
    (context system : option string) (client : Client) (w : World) :
  CerebrasClient.__init__ None model_arg environ file = Ok client ->
  requests (snd (main server decode json_loads environ file model_arg
                      (CmdChat message context system) w))
  = requests w
    ++ [chat_request client
          (conversation (chat_prompt message context) system)
          4096 0.7%float].
Proof.
  intros H. rewrite (main_run _ _ _ _ _ _ _ _ H).
  cbn [run_command].
  assert (forall p,
            requests (snd ((result ← complete server client p system
                                       default_max_tokens
                                       default_temperature;
                            print result newline) w))
            = requests w
              ++ [chat_request client (conversation p system) 4096
                               0.7%float]) as K.
  { intros p.
    rewrite (print_result_run _ _ _ _ (complete_run _ _ _ _ _ _ _)).
    match goal with |- context [chat_outcome ?r] =>
      destruct (chat_outcome r) end; reflexivity. }
  destruct context as [[|c t]|]; apply K.
Qed.

Lemma main_chat_prompt_witness :
  requests (snd (main (constant_server ok_response) Reference.decode
                      Reference.json_loads key_environ None None
                      (CmdChat "Why?" (Some "x = 1") (Some "Be terse"))
                      world0))
  = [chat_request demo_client
       [mkMessage "system" "Be terse";
        mkMessage "user"
          ("Context:" +:+ newline +:+ "x = 1" +:+ newline +:+ newline
           +:+ "Why?")]
       4096 0.7%float].
Proof.
  apply (main_chat_prompt (constant_server ok_response) Reference.decode
           Reference.json_loads key_environ None None "Why?" (Some "x = 1")
           (Some "Be terse") demo_client world0 eq_refl).
Defined.

(** ** The form of a line of the config file *)

Lemma contains_key_value K V :
  PyStr.contains "=" (K +:+ "=" +:+ V) = true.
Proof.
  induction K as [|c K IH].
  - change (EmptyString +:+ "=" +:+ V) with (String "=" V).
    cbn [PyStr.contains String.prefix].
    destruct (ascii_dec "=" "=") as [_|n]; [|congruence].
    rewrite prefix_empty. reflexivity.
  - change (String c K +:+ "=" +:+ V) with (String c (K +:+ "=" +:+ V)).
    cbn [PyStr.contains]. rewrite IH. apply orb_true_r.
Qed.

Lemma startswith_key_value K V :
  PyStr.startswith (K +:+ "=" +:+ V) "#" = PyStr.startswith K "#".
Proof.
  unfold PyStr.startswith. destruct K as [|c K]; [reflexivity|].
  change (String c K +:+ "=" +:+ V) with (String c (K +:+ "=" +:+ V)).
  cbn [String.prefix]. destruct (ascii_dec _ c); [|reflexivity].
  rewrite !prefix_empty. reflexivity.
Qed.

(** Splitting at the first [=]: what stands before it holds none. *)
Lemma split_1_key_value K V :
  PyStr.contains "=" K = false ->
  PyStr.split_1 "=" (K +:+ "=" +:+ V) = [K; V].
Proof.
  induction K as [|c K IH]; intros H.
  - change (EmptyString +:+ "=" +:+ V) with (String "=" V).
    cbn [PyStr.split_1 String.prefix].
    destruct (ascii_dec "=" "=") as [_|n]; [|congruence].
    rewrite prefix_empty. reflexivity.
  - change (String c K +:+ "=" +:+ V) with (String c (K +:+ "=" +:+ V)).
    cbn [PyStr.contains] in H. apply orb_false_iff in H as [H1 H2].
    cbn [PyStr.split_1]. cbn [String.prefix] in H1 |- *.
    destruct (ascii_dec "=" c) as [e|n].
    + rewrite prefix_empty in H1. discriminate.
    + rewrite (IH H2). reflexivity.
Qed.

(** X19: a line of the config file is cut at its first [=]. What stands
    before it, blanks stripped and in lower case, is the key, so that the
    key may be written in capitals and with blanks around it; all that
    follows it, further [=] included, is the value, blanks and then
    quotes stripped at its two ends. A line whose key is
    [cerebras_model] sets the model to that value, and one whose key is
    [cerebras_api_key] sets the key to it when no key is there yet. *)
Theorem config_line_key_value
    (config : Config) (raw K V : string) :
  PyStr.strip raw = K +:+ "=" +:+ V ->
  PyStr.contains "=" K = false ->
  PyStr.startswith K "#" = false ->
  let value := PyStr.strip_chars quote_chars (PyStr.strip V) in
  entry raw = Some (PyStr.lower (PyStr.strip K), value)
  /\ (PyStr.lower (PyStr.strip K) = "cerebras_model" ->
      config_line config raw = Ok (set_model config value))
  /\ (PyStr.lower (PyStr.strip K) = "cerebras_api_key" ->
      PyStr.truthy (cfg_api_key config) = false ->
      config_line config raw = Ok (set_api_key config (Some value))).
Proof.
  intros S C H value.
  assert (entry raw = Some (PyStr.lower (PyStr.strip K), value)) as E.
  { unfold entry. rewrite S, contains_key_value, startswith_key_value, H.
    cbn [andb negb]. rewrite (split_1_key_value K V C). reflexivity. }
  split; [exact E|]. rewrite config_line_entry, E. split.
  - intros ->. reflexivity.
  - intros -> ->. reflexivity.
Qed.

Lemma config_line_key_value_witness :
  config_line (mkConfig None "zai-glm-4.7" url_v1)
              (q "  CEREBRAS_API_KEY = 'a=b='  ")
  = Ok (mkConfig (Some "a=b=") "zai-glm-4.7" url_v1).
Proof.
  etransitivity.
  - apply (proj2 (proj2 (config_line_key_value
                           (mkConfig None "zai-glm-4.7" url_v1)
                           (q "  CEREBRAS_API_KEY = 'a=b='  ")
                           "CEREBRAS_API_KEY " (q " 'a=b='")
                           eq_refl eq_refl eq_refl)));
      reflexivity.
  - reflexivity.
Defined.

(** ** Frames that end the stream, and the count of requests *)

(** X20: two more frames end the stream with an exception, the fragments
    before them yielded and the lines after them not read: a frame whose
    list of choices is empty raises [IndexError], and a frame whose first
    choice has [null] under [delta] raises [TypeError] (the default of
    [get] stands for a missing [delta], not for a [null] one). *)
Theorem stream_stops_at_empty_choices_or_null_delta
    (server : Request -> Response)
    (decode : list Byte.byte -> option string)
    (json_loads : string -> option JSON)
    (self : Client) (prompt : string) (system : option string)
    (max_tokens : Z) (temperature : float) (w : World)
    (pre post : list (list Byte.byte)) (raw : list Byte.byte)
    (vs : list JSON) (s payload : string) (d : list (string * JSON)) :
  let request := stream_request self prompt system max_tokens temperature in
  status (server request) = 200%Z ->
  body_lines (server request) = pre ++ raw :: post ->
  stream_lines decode json_loads pre = mkRun vs (Ok tt) ->
  decode raw = Some s ->
  PyStr.strip s = "data: " +:+ payload ->
  payload <> "[DONE]" ->
  json_loads payload = Some (JDict d) ->
  (dict_get d "choices" = Some (JList []) ->
   fst (stream server decode json_loads self prompt system max_tokens
               temperature w)
   = mkRun vs (Raise IndexError))
  /\ (forall choice more,
        dict_get d "choices" = Some (JList (JDict choice :: more)) ->
        dict_get choice "delta" = Some JNull ->
        fst (stream server decode json_loads self prompt system max_tokens
                    temperature w)
        = mkRun vs (Raise TypeError)).
Proof.
  intros request St B P D S N J.
  assert (forall e, stream_line decode json_loads raw = Raise e ->
            fst (stream server decode json_loads self prompt system
                        max_tokens temperature w)
            = mkRun vs (Raise e)) as K.
  { intros e L. rewrite stream_run. fold request. rewrite St, B.
    cbn [fst Z.eqb negb].
    apply (stream_lines_raise decode json_loads pre raw post vs e P L). }
  apply String.eqb_neq in N.
  split.
  - intros C. apply K.
    rewrite (stream_line_data decode json_loads raw s payload D S), J, N.
    cbn [mbind result_bind Py.getitem]. rewrite C. reflexivity.
  - intros choice more C Dl. apply K.
    rewrite (stream_line_data decode json_loads raw s payload D S), J, N.
    cbn [mbind result_bind Py.getitem]. rewrite C.
    cbn [mbind result_bind Py.getitem_0 Py.get]. rewrite Dl. reflexivity.
Qed.

Lemma stream_stops_at_empty_choices_or_null_delta_witness :
  reference_run ["data: " +:+ payload_Hel;
                 q "data: {'choices':[],'usage':{'total_tokens':3}}";
                 "data: [DONE]"]
  = mkRun [JStr "Hel"] (Raise IndexError)
  /\ reference_run ["data: " +:+ payload_Hel;
                    q "data: {'choices':[{'delta':null}]}"]
     = mkRun [JStr "Hel"] (Raise TypeError).
Proof.
  split.
  - apply (proj1 (stream_stops_at_empty_choices_or_null_delta
             (constant_server
                (streaming_response
                   ["data: " +:+ payload_Hel;
                    q "data: {'choices':[],'usage':{'total_tokens':3}}";
                    "data: [DONE]"]))
             Reference.decode Reference.json_loads demo_client "Hi" None
             4096 0.7%float world0
             [body_line ("data: " +:+ payload_Hel)]
             [body_line "data: [DONE]"]
             (body_line (q "data: {'choices':[],'usage':{'total_tokens':3}}"))
             [JStr "Hel"]
             (q "data: {'choices':[],'usage':{'total_tokens':3}}" +:+ newline)
             (q "{'choices':[],'usage':{'total_tokens':3}}")
             [("choices", JList []);
              ("usage", JDict [("total_tokens", JNumber "3")])]
             eq_refl eq_refl eq_refl eq_refl eq_refl
             ltac:(discriminate) eq_refl) eq_refl).
  - apply (proj2 (stream_stops_at_empty_choices_or_null_delta
             (constant_server
                (streaming_response
                   ["data: " +:+ payload_Hel;
                    q "data: {'choices':[{'delta':null}]}"]))
             Reference.decode Reference.json_loads demo_client "Hi" None
             4096 0.7%float world0
             [body_line ("data: " +:+ payload_Hel)] []
             (body_line (q "data: {'choices':[{'delta':null}]}"))
             [JStr "Hel"]
             (q "data: {'choices':[{'delta':null}]}" +:+ newline)
             (q "{'choices':[{'delta':null}]}")
             [("choices", JList [JDict [("delta", JNull)]])]
             eq_refl eq_refl eq_refl eq_refl eq_refl
             ltac:(discriminate) eq_refl)
           [("delta", JNull)] [] eq_refl eq_refl).
Defined.

(** X21: [main] sends at most one request, whatever the environment, the
    config file, the command and the server's responses: the requests
    sent before it started stay as they are, and none or one is added.
    None is added when construction fails or the preset has no known
    name. *)
Theorem main_at_most_one_request
    (server : Request -> Response)
    (decode : list Byte.byte -> option string)
    (json_loads : string -> option JSON)
    (environ : gmap string string) (file : option (list string))
    (model_arg : option string) (command : Command) (w : World) :
  exists added,
    requests (snd (main server decode json_loads environ file model_arg
                        command w))
    = requests w ++ added
    /\ (length added <= 1)%nat.
Proof.
  destruct (CerebrasClient.__init__ None model_arg environ file)
    as [client|e] eqn:H.
  - rewrite (main_run _ _ _ _ _ _ _ _ H).
    destruct (streaming command) eqn:S.
    + destruct command as [p s [|]|t c l|m c s|n c tl]; try discriminate S.
      rewrite run_command_streaming. eexists. split; [reflexivity|].
      cbn. lia.
    + destruct (valid_command command) eqn:V.
      * destruct (run_command_blocking server decode json_loads client
                    command V S) as [messages ->].
        rewrite (print_result_run _ _ _ _ (chat_run _ _ _ _ _ _)).
        eexists. split; [|shelve].
        match goal with |- context [chat_outcome ?r] =>
          destruct (chat_outcome r) end; reflexivity.
        Unshelve. cbn. lia.
      * destruct command as [p s b|t c l|m c s|n c tl]; try discriminate V.
        cbn [valid_command] in V. cbn [run_command].
        assert (exists k, preset_get PRESETS n = Raise k) as [k K].
        { revert V. generalize PRESETS. intros items.
          induction items as [|[a b] rest IH]; [eauto|].
          cbn [existsb preset_get fst].
          destruct (String.eqb a n); [discriminate|exact IH]. }
        unfold mbind at 1, M_bind at 1, lift. rewrite K.
        exists []. rewrite app_nil_r. split; [reflexivity|cbn; lia].
  - exists []. rewrite app_nil_r. split; [|cbn; lia].
    unfold main. rewrite H. destruct e; reflexivity.
Qed.
